(** * Parcel Report Generator: a shallow embedding of Planning_Parcel_Tool.py

    The script is a straight-line pipeline over two external hosts: the GIS
    host (arcpy: project, maps, layers, cursors, geometry predicates, layouts)
    and the spreadsheet host (pandas).  The hosts are kept abstract in the
    class [Host] and in the records that describe a project; the script
    itself is embedded statement by statement in a state-and-exception monad
    that also logs what the run writes out. *)

From stdpp Require Import gmap strings list fin_maps.
From Stdlib Require Import ZArith Ascii Lia.

Local Open Scope Z_scope.

(** The newline character of the summary template. *)
Definition newline : string := String (ascii_of_nat 10) EmptyString.

(** ** Python values that the script handles *)

(** Exceptions the script can end with.  [Exception msg] is the script's own
    [raise Exception(msg)]; [StopIteration], [IndexError] and [KeyError] are
    raised by the interpreter; [AttributeError] is raised by pandas when the
    [.str] accessor rejects a column; [HostError cls] is an exception of class
    [cls] raised inside [exportToJPEG] or while the summary file is opened
    and written. *)
Inductive exn : Type :=
  | StopIteration
  | IndexError
  | KeyError (key : string)
  | Exception (msg : string)
  | AttributeError
  | HostError (cls : string).

(** The two messages the script raises, under the names the specification
    gives to these failures. *)
Definition DistrictNotFound : exn :=
  Exception "No planning district found for selected parcel.".
Definition LandUseNotFound : exn :=
  Exception "No land use value found for selected parcel.".

(** An attribute value read through a cursor: text, or [None] for NULL. *)
Definition truthy (v : option string) : bool :=
  match v with
  | Some s => negb (String.eqb s "")
  | None => false
  end.

(** [format(v)] inside an f-string. *)
Definition fmt (v : option string) : string :=
  match v with
  | Some s => s
  | None => "None"
  end.

(** A cell of the data frame: text, a number, a blank (NaN), or any other
    content (a date, a boolean).  Of a cell that is not text the script only
    ever uses the formatted value, [shown]. *)
Inductive cell : Type :=
  | CText (s : string)
  | CNumber (shown : string)
  | CBlank
  | COther (shown : string).

Definition fmt_cell (c : cell) : string :=
  match c with
  | CText s => s
  | CNumber shown => shown
  | CBlank => "nan"
  | COther shown => shown
  end.

(** A row of the data frame read from the workbook. *)
Record ExcelRow : Type := {
  DISTRICT_PLAN : cell;
  TYPE : cell;
  SIZE : cell;
  DESC : cell
}.

(** ** The hosts

    What the script calls on host objects is taken as given.  The geometry
    and layer operations return a value; the layers carry the fields the
    script's header asks for, and the workbook has its four columns.  The
    text methods [str.strip] and [str.lower] are the interpreter's own.  The
    calls that write to disk, and the [.str] accessor of a column, can
    raise. *)

Class Host : Type := {
  Geometry : Type;
  Point : Type;
  Coord : Type;
  Extent : Type;
  SpatialReference : Type;
  (** [a.contains(b)] and [a.overlaps(b)] *)
  contains : Geometry → Geometry → bool;
  overlaps : Geometry → Geometry → bool;
  extent : Geometry → Extent;
  spatialReference : Geometry → SpatialReference;
  (** [geom.centroid], then [.centroid.X] and [.centroid.Y] on its value *)
  centroid : Geometry → Point;
  centroid_X : Point → Coord;
  centroid_Y : Point → Coord;
  (** [x + d] for a coordinate and an integer literal *)
  coord_add : Coord → Z → Coord;
  (** [geo.PointGeometry(geo.Point(x, y), sr)] *)
  PointGeometry : Coord → Coord → SpatialReference → Geometry;
  (** does a feature with these attributes pass a layer's definition query *)
  sql_select : string → (string → option string) → bool;
  (** [os.path.join] *)
  path_join : string → string → string;
  (** [s.strip()] and [s.lower()] *)
  str_strip : string → string;
  str_lower : string → string;
  (** for a column without text that is not numbers and blanks only: does
      the dtype pandas inferred for it (mixed objects, against dates only
      or booleans only) let [.str] through *)
  textless_str : list cell → bool;
  (** [layout.exportToJPEG(out_path, resolution=300)] on the layout of that
      identity: [None] when the image is written, the class of the exception
      raised otherwise *)
  export_failure : nat → string → option string;
  (** [with open(path, 'w') as f: f.write(text)]: [None] when the text is
      written, the class of the exception raised otherwise *)
  write_failure : string → string → option string
}.

(** ** The project: maps, layers, layouts *)

Section Pipeline.

Context `{host : Host}.

(** A feature of a layer: its shape ([SHAPE@]) and its attributes by field
    name. *)
Record Feature : Type := {
  SHAPE : Geometry;
  attr : string → option string
}.

(** A layer object.  [layer_id] is the object's identity: the definition
    query, the one property the script assigns, is kept in the state under
    that identity, so that two references to one layer see the same query. *)
Record Layer : Type := {
  layer_id : nat;
  isFeatureLayer : bool;
  features : list Feature
}.

(** A layout; [listElements kind wildcard] gives the identities of the map
    frames found. *)
Record Layout : Type := {
  layout_id : nat;
  listElements : string → string → list nat
}.

(** [wildcard = None] is the call [listLayers(None)]. *)
Record MapObj : Type := {
  listLayers : option string → list Layer
}.

Record ArcGISProject : Type := {
  listMaps : list MapObj;
  listLayouts : string → list Layout
}.

(** What the host holds and the script assigns to. *)
Record state : Type := mkState {
  definitionQuery : gmap nat string;
  camera_extent : gmap nat Extent;
  camera_scale : gmap nat Z
}.

(** What a run hands to the outside. *)
Inductive output : Type :=
  | ExportedJPEG (layout : nat) (out_path : string) (resolution : Z)
  | WrittenFile (path : string) (text : string)
  | Message (text : string).

(** ** The monad of the script: state, exceptions, and the output log *)

Definition M (A : Type) : Type := state → (exn + A) * state * list output.

Definition ret {A} (a : A) : M A := λ σ, (inr a, σ, []).

Definition raise {A} (e : exn) : M A := λ σ, (inl e, σ, []).

Definition bind {A B} (m : M A) (k : A → M B) : M B :=
  λ σ,
    match m σ with
    | (inl e, σ1, out1) => (inl e, σ1, out1)
    | (inr a, σ1, out1) =>
        match k a σ1 with
        | (r, σ2, out2) => (r, σ2, out1 ++ out2)
        end
    end.

Definition get : M state := λ σ, (inr σ, σ, []).

Definition modify (f : state → state) : M unit := λ σ, (inr tt, f σ, []).

Definition emit (o : output) : M unit := λ σ, (inr tt, σ, [o]).

End Pipeline.

Declare Scope py_scope.
Delimit Scope py_scope with py.
Notation "x <- m ;; k" := (bind m (λ x, k))
  (at level 100, m at next level, right associativity) : py_scope.
Notation "m ;;; k" := (bind m (λ _, k))
  (at level 100, right associativity) : py_scope.

(** ** The script *)

Section Script.

Context `{host : Host}.

Local Open Scope py_scope.

(** *** Constants *)

Definition parcel_layer_name : string := "Subject Parcel".
Definition district_outline_name : string := "Planning District Outline".

Definition district_to_layer : gmap string string :=
  list_to_map
    [ ("Fort Lewis Mesa", "Fort Lewis Mesa");
      ("Animas Valley", "Animas Valley");
      ("Animas Zoning District", "Animas Zoning District");
      ("Gem Village Business District", "Gem Village Business District");
      ("Durango District Plan", "Durango District Plan");
      ("Florida Mesa", "Florida Mesa");
      ("La Posta Road", "La Posta Road");
      ("Florida Road", "Florida Road");
      ("Junction Creek", "Junction Creek");
      ("North County", "North County");
      ("Vallecito", "Vallecito");
      ("West Durango", "West Durango") ].

(** *** Interpreter and host operations used by the script *)

(** A step that changes nothing and either gives a value or raises. *)
Definition lift {A} (r : exn + A) : M A :=
  match r with
  | inl e => raise e
  | inr a => ret a
  end.

(** [l[0]] *)
Definition index0 {A} (l : list A) : M A :=
  match l with
  | x :: _ => ret x
  | [] => raise IndexError
  end.

(** [next(cursor)] on a fresh cursor *)
Definition next {A} (cursor : list A) : M A :=
  match cursor with
  | row :: _ => ret row
  | [] => raise StopIteration
  end.

(** [d[key]] *)
Definition getitem {A} (d : gmap string A) (key : string) : M A :=
  match d !! key with
  | Some v => ret v
  | None => raise (KeyError key)
  end.

(** The rows [arcpy.da.SearchCursor(layer, ["SHAPE@", field])] yields when the
    host is in state [σ]: the layer's features that pass its definition query
    (the empty query when none was ever assigned), in the layer's order. *)
Definition query_of (σ : state) (lyr : Layer) : string :=
  default "" (definitionQuery σ !! layer_id lyr).

Definition rows_of (σ : state) (lyr : Layer) (field : string)
  : list (Geometry * option string) :=
  map (λ f, (SHAPE f, attr f field))
      (List.filter (λ f, sql_select (query_of σ lyr) (attr f)) (features lyr)).

Definition SearchCursor (lyr : Layer) (field : string)
  : M (list (Geometry * option string)) :=
  σ <- get ;; ret (rows_of σ lyr field).

(** [layer.definitionQuery = q] *)
Definition set_definitionQuery (lyr : Layer) (q : string) : M unit :=
  modify (λ σ, mkState (<[layer_id lyr := q]> (definitionQuery σ))
                       (camera_extent σ) (camera_scale σ)).

(** [map_frame.camera.setExtent(e)] and [map_frame.camera.scale = s] *)
Definition setExtent (map_frame : nat) (e : Extent) : M unit :=
  modify (λ σ, mkState (definitionQuery σ)
                       (<[map_frame := e]> (camera_extent σ)) (camera_scale σ)).

Definition set_scale (map_frame : nat) (s : Z) : M unit :=
  modify (λ σ, mkState (definitionQuery σ) (camera_extent σ)
                       (<[map_frame := s]> (camera_scale σ))).

(** The loop shape of Steps 2, 3 and 4:
    [for row in cursor: if test(row[0]): v = row[1]; break], where [v] is
    [otherwise] if the loop never assigns. *)
Fixpoint first_hit (test : Geometry → bool)
    (cursor : list (Geometry * option string)) (otherwise : option string)
  : option string :=
  match cursor with
  | [] => otherwise
  | row :: rest => if test row.1 then row.2 else first_hit test rest otherwise
  end.

(** [if not v: raise Exception(msg)], after which [v] is a non-empty text *)
Definition require (v : option string) (e : exn) : M string :=
  match v with
  | Some s => if truthy v then ret s else raise e
  | None => raise e
  end.

(** *** Step 1: definition query and parcel geometry *)

Definition parcel_locator (parcel_layer : Layer) (parcel_number : string)
  : M (Geometry * Extent) :=
  set_definitionQuery parcel_layer
    ("ParcelNumber = '" +:+ parcel_number +:+ "'") ;;;
  cursor <- SearchCursor parcel_layer "ParcelNumber" ;;
  row <- next cursor ;;
  let parcel_geom := row.1 in
  let parcel_extent := extent parcel_geom in
  ret (parcel_geom, parcel_extent).

(** *** Step 2: planning district *)

Definition district_resolver (district_layer : Layer) (parcel_geom : Geometry)
  : M string :=
  cursor <- SearchCursor district_layer "PLANNAME" ;;
  let planning_district :=
    first_hit (λ shape, contains shape parcel_geom) cursor None in
  require planning_district DistrictNotFound.

(** *** Step 3: land use designation *)

Definition land_use_resolver (map_obj : MapObj) (planning_district : string)
    (parcel_geom : Geometry) : M (Layer * string) :=
  let land_use_layer_name := district_to_layer !! planning_district in
  land_use_layer <- index0 (listLayers map_obj land_use_layer_name) ;;
  cursor <- SearchCursor land_use_layer "LUC_TEXT" ;;
  let land_use_value :=
    first_hit (λ shape, overlaps shape parcel_geom || contains shape parcel_geom)
              cursor None in
  v <- require land_use_value LandUseNotFound ;;
  ret (land_use_layer, v).

(** *** Step 4: adjacent land uses *)

Definition directions : list (string * (Z * Z)) :=
  [ ("North", (0, 50)); ("East", (50, 0)); ("South", (0, -50)); ("West", (-50, 0)) ].

Definition probe_point (parcel_geom : Geometry) (dx dy : Z) : Geometry :=
  let c := centroid parcel_geom in
  PointGeometry (coord_add (centroid_X c) dx) (coord_add (centroid_Y c) dy)
                (spatialReference parcel_geom).

Fixpoint probe_each (dirs : list (string * (Z * Z))) (land_use_layer : Layer)
    (parcel_geom : Geometry) (directional_land_use : gmap string (option string))
  : M (gmap string (option string)) :=
  match dirs with
  | [] => ret directional_land_use
  | (dir, (dx, dy)) :: dirs' =>
      let probe := probe_point parcel_geom dx dy in
      cursor <- SearchCursor land_use_layer "LUC_TEXT" ;;
      let v := first_hit (λ shape, contains shape probe) cursor (Some "Unknown") in
      probe_each dirs' land_use_layer parcel_geom (<[dir := v]> directional_land_use)
  end.

Definition directional_prober (land_use_layer : Layer) (parcel_geom : Geometry)
  : M (gmap string (option string)) :=
  probe_each directions land_use_layer parcel_geom ∅.

(** *** Step 5: match the workbook row *)

Definition normalize (s : string) : string := str_lower (str_strip s).

Definition is_text (c : cell) : bool :=
  match c with
  | CText _ => true
  | _ => false
  end.

Definition is_numeric (c : cell) : bool :=
  match c with
  | CNumber _ | CBlank => true
  | _ => false
  end.

(** [df[col].str]: pandas checks the column as a whole before any cell is
    looked at, and raises [AttributeError] if it rejects it.  A column
    without rows is let through, and so is a column with at least one text
    cell; a column of numbers and blanks only has a numeric dtype and is
    rejected; for any other column the answer is pandas' dtype inference,
    [textless_str]. *)
Definition has_str (column : list cell) : bool :=
  match column with
  | [] => true
  | _ :: _ =>
      existsb is_text column
      || (negb (forallb is_numeric column) && textless_str column)
  end.

(** One element of [df[col].str.strip().str.lower()]: a text cell is
    normalised, any other cell becomes NaN, which compares unequal to
    everything. *)
Definition str_strip_lower (c : cell) : option string :=
  match c with
  | CText s => Some (normalize s)
  | _ => None
  end.

Definition series_eq (c : cell) (s : string) : bool :=
  match str_strip_lower c with
  | Some t => String.eqb t s
  | None => false
  end.

Definition row_mask (planning_district land_use_value : string) (r : ExcelRow)
  : bool :=
  series_eq (DISTRICT_PLAN r) (normalize planning_district)
  && series_eq (TYPE r) (normalize land_use_value).

(** [match = df[mask]] *)
Definition match_ (df : list ExcelRow)
    (planning_district land_use_value : string) : list ExcelRow :=
  List.filter (row_mask planning_district land_use_value) df.

(** Lines 104-109: [size] and [desc] from [match.iloc[0]], or the
    fallback. *)
Definition size_desc (matched : list ExcelRow) : cell * cell :=
  match matched with
  | row :: _ => (SIZE row, DESC row)
  | [] => (CText "Not found", CText "Not found")
  end.

Definition metadata_matcher (df : list ExcelRow)
    (planning_district land_use_value : string) : exn + cell * cell :=
  if has_str (map DISTRICT_PLAN df) then
    if has_str (map TYPE df) then
      inr (size_desc (match_ df planning_district land_use_value))
    else inl AttributeError
  else inl AttributeError.

(** *** Step 6: export the layouts *)

Definition layout_exports : list (string * (string * option Z)) :=
  [ ("Layout1", ("Figure 1", Some 2640));
    ("Layout2", ("Figure 2", None));
    ("Layout3", ("Figure 3", None)) ].

Definition exportToJPEG (layout : Layout) (out_path : string) (resolution : Z)
  : M unit :=
  match export_failure (layout_id layout) out_path with
  | Some cls => raise (HostError cls)
  | None => emit (ExportedJPEG (layout_id layout) out_path resolution)
  end.

Fixpoint export_each (exports : list (string * (string * option Z)))
    (project : ArcGISProject) (parcel_extent : Extent)
    (parcel_number output_folder : string) : M unit :=
  match exports with
  | [] => ret tt
  | (layout_name, (frame, scale)) :: exports' =>
      layout <- index0 (listLayouts project layout_name) ;;
      map_frame <- index0 (listElements layout "MAPFRAME_ELEMENT" frame) ;;
      setExtent map_frame parcel_extent ;;;
      match scale with
      | Some s => if s =? 0 then ret tt else set_scale map_frame s
      | None => ret tt
      end ;;;
      let out_path :=
        path_join output_folder (parcel_number +:+ "_" +:+ layout_name +:+ ".jpg") in
      exportToJPEG layout out_path 300 ;;;
      export_each exports' project parcel_extent parcel_number output_folder
  end.

(** *** Step 7: the summary *)

(** The variables of the script that are live after Step 5. *)
Record resolved : Type := {
  parcel_extent : Extent;
  planning_district : string;
  land_use_value : string;
  directional_land_use : gmap string (option string);
  size_ : cell;
  desc_ : cell
}.

Definition summary_text (parcel_number : string) (r : resolved)
    (north east south west : option string) : string :=
  newline +:+
  "Parcel Number: " +:+ parcel_number +:+ newline +:+
  "Planning District: " +:+ planning_district r +:+ newline +:+
  "Land Use Type: " +:+ land_use_value r +:+ newline +:+
  newline +:+
  "From Excel:" +:+ newline +:+
  "  Size: " +:+ fmt_cell (size_ r) +:+ newline +:+
  "  Description: " +:+ fmt_cell (desc_ r) +:+ newline +:+
  newline +:+
  "Adjacent Land Use:" +:+ newline +:+
  "  North: " +:+ fmt north +:+ newline +:+
  "  East:  " +:+ fmt east +:+ newline +:+
  "  South: " +:+ fmt south +:+ newline +:+
  "  West:  " +:+ fmt west +:+ newline.

Definition write_file (path text : string) : M unit :=
  match write_failure path text with
  | Some cls => raise (HostError cls)
  | None => emit (WrittenFile path text)
  end.

Definition AddMessage (text : string) : M unit := emit (Message text).

(** *** The whole run *)

(** Lines 50-109: project, layers, Steps 1 to 5. *)
Definition resolution (df : list ExcelRow) (project : ArcGISProject)
    (parcel_number : string) : M resolved :=
  map_obj <- index0 (listMaps project) ;;
  parcel_layer <- index0 (listLayers map_obj (Some parcel_layer_name)) ;;
  district_layer <-
    index0 (List.filter isFeatureLayer
              (listLayers map_obj (Some district_outline_name))) ;;
  located <- parcel_locator parcel_layer parcel_number ;;
  let parcel_geom := located.1 in
  district <- district_resolver district_layer parcel_geom ;;
  land_use <- land_use_resolver map_obj district parcel_geom ;;
  let land_use_layer := land_use.1 in
  directional <- directional_prober land_use_layer parcel_geom ;;
  matched <- lift (metadata_matcher df district land_use.2) ;;
  ret {| parcel_extent := located.2;
         planning_district := district;
         land_use_value := land_use.2;
         directional_land_use := directional;
         size_ := matched.1;
         desc_ := matched.2 |}.

(** Lines 111-148: Steps 6 and 7. *)
Definition report (project : ArcGISProject)
    (parcel_number output_folder : string) (r : resolved) : M unit :=
  export_each layout_exports project (parcel_extent r)
              parcel_number output_folder ;;;
  north <- getitem (directional_land_use r) "North" ;;
  east <- getitem (directional_land_use r) "East" ;;
  south <- getitem (directional_land_use r) "South" ;;
  west <- getitem (directional_land_use r) "West" ;;
  let text := summary_text parcel_number r north east south west in
  let summary_path := path_join output_folder (parcel_number +:+ "_summary.txt") in
  write_file summary_path text ;;;
  AddMessage "Parcel report complete.".

Definition run (df : list ExcelRow) (project : ArcGISProject)
    (parcel_number output_folder : string) : M unit :=
  r <- resolution df project parcel_number ;;
  report project parcel_number output_folder r.

End Script.

(** ** A concrete host: axis-parallel boxes on the integer grid

    Used to run the script on explicit data.  Its text is ASCII and its
    output folder "nowhere" does not exist. *)

Module Grid.

(** [str.strip] and [str.lower] on ASCII text. *)
Definition isspace (c : ascii) : bool :=
  let n := nat_of_ascii c in
  ((9 <=? n)%nat && (n <=? 13)%nat) || ((28 <=? n)%nat && (n <=? 32)%nat).

Definition lower_char (c : ascii) : ascii :=
  let n := nat_of_ascii c in
  if ((65 <=? n)%nat && (n <=? 90)%nat) then ascii_of_nat (n + 32) else c.

Fixpoint lower (s : string) : string :=
  match s with
  | EmptyString => EmptyString
  | String c s' => String (lower_char c) (lower s')
  end.

Fixpoint lstrip (s : string) : string :=
  match s with
  | EmptyString => EmptyString
  | String c s' => if isspace c then lstrip s' else s
  end.

Fixpoint rstrip (s : string) : string :=
  match s with
  | EmptyString => EmptyString
  | String c s' =>
      match rstrip s' with
      | EmptyString => if isspace c then EmptyString else String c EmptyString
      | r => String c r
      end
  end.

Definition strip (s : string) : string := rstrip (lstrip s).

(** [(xmin, ymin, xmax, ymax)] *)
Definition box : Type := Z * Z * Z * Z.

Definition box_contains (a b : box) : bool :=
  let '(ax0, ay0, ax1, ay1) := a in
  let '(bx0, by0, bx1, by1) := b in
  (ax0 <=? bx0) && (ay0 <=? by0) && (bx1 <=? ax1) && (by1 <=? ay1).

Definition box_meets (a b : box) : bool :=
  let '(ax0, ay0, ax1, ay1) := a in
  let '(bx0, by0, bx1, by1) := b in
  (ax0 <? bx1) && (bx0 <? ax1) && (ay0 <? by1) && (by0 <? ay1).

Definition box_overlaps (a b : box) : bool :=
  box_meets a b && negb (box_contains a b) && negb (box_contains b a).

Definition box_centroid (a : box) : Z * Z :=
  let '(x0, y0, x1, y1) := a in ((x0 + x1) / 2, (y0 + y1) / 2).

(** The one shape of query the script assigns, and the empty query. *)
Definition select (q : string) (attrs : string → option string) : bool :=
  String.eqb q ""
  || match attrs "ParcelNumber" with
     | Some v => String.eqb q ("ParcelNumber = '" +:+ v +:+ "'")
     | None => false
     end.

Definition grid_host : Host := {|
  Geometry := box;
  Point := Z * Z;
  Coord := Z;
  Extent := box;
  SpatialReference := unit;
  contains := box_contains;
  overlaps := box_overlaps;
  extent := λ a, a;
  spatialReference := λ _, tt;
  centroid := box_centroid;
  centroid_X := fst;
  centroid_Y := snd;
  coord_add := Z.add;
  PointGeometry := λ x y _, (x, y, x, y);
  sql_select := select;
  path_join := λ a b, a +:+ "/" +:+ b;
  str_strip := strip;
  str_lower := lower;
  textless_str := λ _, true;
  export_failure := λ _ _, None;
  write_failure := λ path _,
    if String.prefix "nowhere/" path then Some "FileNotFoundError" else None
|}.

Definition feature (shape : box) (field value : string) : @Feature grid_host :=
  {| SHAPE := (shape : @Geometry grid_host);
     attr := λ f, if String.eqb f field then Some value else None |}.

Definition null_feature (shape : box) : @Feature grid_host :=
  {| SHAPE := (shape : @Geometry grid_host); attr := λ _, None |}.

Definition feature_layer (id : nat) (fs : list (@Feature grid_host))
  : @Layer grid_host :=
  {| layer_id := id; isFeatureLayer := true; features := fs |}.

(** A county with one district, "Florida Mesa", and its land-use layer. *)
Definition parcels : @Layer grid_host :=
  feature_layer 1
    [ feature (100, 100, 120, 120) "ParcelNumber" "P1";
      feature (900, 900, 920, 920) "ParcelNumber" "P2";
      feature (470, 470, 490, 490) "ParcelNumber" "P4" ].

Definition districts : @Layer grid_host :=
  feature_layer 2 [ feature (0, 0, 500, 500) "PLANNAME" "Florida Mesa" ].

Definition florida_mesa : @Layer grid_host :=
  feature_layer 3
    [ feature (90, 90, 130, 130) "LUC_TEXT" "Agricultural";
      feature (0, 0, 500, 500) "LUC_TEXT" "Residential" ].

Definition layers_by_name (named : list (string * @Layer grid_host))
    (wildcard : option string) : list (@Layer grid_host) :=
  match wildcard with
  | None => map snd named
  | Some w => map snd (List.filter (λ nl, String.eqb nl.1 w) named)
  end.

Definition county_map : @MapObj grid_host :=
  {| listLayers :=
       layers_by_name
         [ ("Subject Parcel", parcels);
           ("Planning District Outline", districts);
           ("Florida Mesa", florida_mesa) ] |}.

Definition one_frame (id frame : nat) (name : string) : Layout :=
  {| layout_id := id;
     listElements := λ kind wildcard,
       if String.eqb kind "MAPFRAME_ELEMENT" && String.eqb wildcard name
       then [frame] else [] |}.

Definition layouts (name : string) : list (Layout) :=
  if String.eqb name "Layout1" then [one_frame 11 21 "Figure 1"]
  else if String.eqb name "Layout2" then [one_frame 12 22 "Figure 2"]
  else if String.eqb name "Layout3" then [one_frame 13 23 "Figure 3"]
  else [].

Definition county : @ArcGISProject grid_host :=
  {| listMaps := [county_map]; listLayouts := layouts |}.

Definition fresh : @state grid_host := mkState ∅ ∅ ∅.

Definition workbook : list ExcelRow :=
  [ {| DISTRICT_PLAN := CText "Animas Valley"; TYPE := CText "Residential";
       SIZE := CText "3 acres"; DESC := CText "Valley homes" |};
    {| DISTRICT_PLAN := CText " florida mesa "; TYPE := CText "AGRICULTURAL ";
       SIZE := CText "35 acres"; DESC := CText "Farm and ranch" |};
    {| DISTRICT_PLAN := CText "Florida Mesa"; TYPE := CText "Agricultural";
       SIZE := CText "40 acres"; DESC := CText "Second entry" |} ].

(** The same county, with the district outline carrying no name. *)
Definition unnamed_districts : @Layer grid_host :=
  feature_layer 2 [ feature (0, 0, 500, 500) "PLANNAME" "" ].

(** A map whose "Florida Mesa" layer has an unlabelled zone first. *)
Definition unlabelled_zones : @Layer grid_host :=
  feature_layer 3
    [ feature (90, 90, 130, 130) "LUC_TEXT" "";
      feature (0, 0, 500, 500) "LUC_TEXT" "Residential" ].

Definition unlabelled_map : @MapObj grid_host :=
  {| listLayers :=
       layers_by_name
         [ ("Subject Parcel", parcels);
           ("Planning District Outline", districts);
           ("Florida Mesa", unlabelled_zones) ] |}.

(** A county whose district, "Bayfield", is not a key of the mapping; the
    land-use layer of Florida Mesa comes first in the map. *)
Definition bayfield_districts : @Layer grid_host :=
  feature_layer 2 [ feature (0, 0, 500, 500) "PLANNAME" "Bayfield" ].

Definition bayfield_map : @MapObj grid_host :=
  {| listLayers :=
       layers_by_name
         [ ("Florida Mesa", florida_mesa);
           ("Subject Parcel", parcels);
           ("Planning District Outline", bayfield_districts) ] |}.

Definition bayfield : @ArcGISProject grid_host :=
  {| listMaps := [bayfield_map]; listLayouts := layouts |}.

(** The county's map without the land-use layer of its district. *)
Definition bare_map : @MapObj grid_host :=
  {| listLayers :=
       layers_by_name
         [ ("Subject Parcel", parcels);
           ("Planning District Outline", districts) ] |}.

Definition bare_county : @ArcGISProject grid_host :=
  {| listMaps := [bare_map]; listLayouts := layouts |}.

(** The shape of parcel P1. *)
Definition P1 : box := (100, 100, 120, 120).

(** A fresh host once the query for a parcel number is assigned. *)
Definition queried (parcel_number : string) : @state grid_host :=
  mkState {[ 1%nat := "ParcelNumber = '" +:+ parcel_number +:+ "'" ]} ∅ ∅.

(** A project that has Layout1 only. *)
Definition first_layout_only (name : string) : list Layout :=
  if String.eqb name "Layout1" then [one_frame 11 21 "Figure 1"] else [].

Definition sparse_county : @ArcGISProject grid_host :=
  {| listMaps := [county_map]; listLayouts := first_layout_only |}.

(** A project without a map. *)
Definition mapless : @ArcGISProject grid_host :=
  {| listMaps := []; listLayouts := layouts |}.

(** The county's map with a group layer that carries the district outline's
    name and comes before the feature layer of that name. *)
Definition outline_group : @Layer grid_host :=
  {| layer_id := 9; isFeatureLayer := false; features := [] |}.

Definition grouped_map : @MapObj grid_host :=
  {| listLayers :=
       layers_by_name
         [ ("Subject Parcel", parcels);
           ("Planning District Outline", outline_group);
           ("Planning District Outline", districts);
           ("Florida Mesa", florida_mesa) ] |}.

Definition grouped_county : @ArcGISProject grid_host :=
  {| listMaps := [grouped_map]; listLayouts := layouts |}.

(** A land-use layer whose first zone covers the whole district. *)
Definition wide_zone : @Layer grid_host :=
  feature_layer 4
    [ feature (0, 0, 500, 500) "LUC_TEXT" "Residential";
      feature (90, 90, 130, 130) "LUC_TEXT" "Agricultural" ].

(** A host left over from an earlier run on another parcel. *)
Definition stale : @state grid_host :=
  mkState {[ 1%nat := "ParcelNumber = 'P4'" ]}
          {[ 21%nat := ((470, 470, 490, 490) : @Extent grid_host) ]}
          {[ 22%nat := 7 ]}.

(** The host after a complete run on parcel P1 from a fresh host. *)
Definition reported : @state grid_host :=
  mkState {[ 1%nat := "ParcelNumber = 'P1'" ]}
          (<[ 23%nat := (P1 : @Extent grid_host) ]>
             (<[ 22%nat := (P1 : @Extent grid_host) ]>
                {[ 21%nat := (P1 : @Extent grid_host) ]}))
          {[ 21%nat := 2640 ]}.

(** What Steps 1 to 5 resolve for parcel P1 of the county. *)
Definition P1_resolved : @resolved grid_host :=
  @Build_resolved grid_host P1 "Florida Mesa" "Agricultural"
    {[ "North" := Some "Residential"; "East" := Some "Residential";
       "South" := Some "Residential"; "West" := Some "Residential" ]}
    (CText "35 acres") (CText "Farm and ranch").

(** What a complete run on P1 writes out. *)
Definition P1_outputs : list (@output) :=
  [ ExportedJPEG 11 "out/P1_Layout1.jpg" 300;
    ExportedJPEG 12 "out/P1_Layout2.jpg" 300;
    ExportedJPEG 13 "out/P1_Layout3.jpg" 300;
    WrittenFile "out/P1_summary.txt"
      (@summary_text grid_host "P1" P1_resolved
         (Some "Residential") (Some "Residential")
         (Some "Residential") (Some "Residential"));
    Message "Parcel report complete." ].

(** The host after a run on P1 that stopped at Layout2. *)
Definition half_reported : @state grid_host :=
  mkState {[ 1%nat := "ParcelNumber = 'P1'" ]}
          {[ 21%nat := (P1 : @Extent grid_host) ]}
          {[ 21%nat := 2640 ]}.

(** The stale host once the query for P1 is assigned. *)
Definition requeried : @state grid_host :=
  mkState {[ 1%nat := "ParcelNumber = 'P1'" ]}
          {[ 21%nat := ((470, 470, 490, 490) : @Extent grid_host) ]}
          {[ 22%nat := 7 ]}.

(** A workbook whose TYPE column holds numbers only. *)
Definition numeric_workbook : list ExcelRow :=
  [ {| DISTRICT_PLAN := CText "Florida Mesa"; TYPE := CNumber "7";
       SIZE := CText "35 acres"; DESC := CText "Farm and ranch" |} ].


(** The workbook with a row whose district cell is empty put first. *)
Definition gappy_workbook : list ExcelRow :=
  {| DISTRICT_PLAN := CBlank; TYPE := CText "Agricultural";
     SIZE := CText "1 acre"; DESC := CText "No district" |} :: workbook.

End Grid.

(** ** Statements

    Definitions used to state the properties: what a step is expected to
    return, and the claims of the specification that are examined as
    written. *)

Section Statements.

Context `{host : Host}.

(** The label of the first zone, in the order the layer yields them, that
    contains [probe]; "Unknown" if there is none. *)
Definition zone_at (σ : state) (lyr : Layer) (probe : Geometry) : option string :=
  match List.find (λ row, contains row.1 probe) (rows_of σ lyr "LUC_TEXT") with
  | Some row => row.2
  | None => Some "Unknown"
  end.

(** What Step 2 or Step 3 makes of the first matching row: its label when
    that is non-empty text, the step's exception otherwise. *)
Definition label_or (e : exn) (row : option (Geometry * option string))
  : exn + string :=
  match row with
  | Some (_, Some label) => if String.eqb label "" then inl e else inr label
  | Some (_, None) => inl e
  | None => inl e
  end.

(** C3 as the specification states it: the name of the first district
    containing the parcel is returned, whatever it is, and the failure is
    raised only when no district contains the parcel. *)
Definition district_claim (district_layer : Layer) (parcel_geom : Geometry)
    (σ : state) : Prop :=
  match List.find (λ row, contains row.1 parcel_geom)
                  (rows_of σ district_layer "PLANNAME") with
  | Some row =>
      ∃ name, row.2 = Some name
              ∧ district_resolver district_layer parcel_geom σ = (inr name, σ, [])
  | None =>
      district_resolver district_layer parcel_geom σ = (inl DistrictNotFound, σ, [])
  end.

(** C2 as the specification states it. *)
Definition land_use_claim (map_obj : MapObj) (planning_district : string)
    (parcel_geom : Geometry) (σ : state) : Prop :=
  ∀ land_use_layer others,
    listLayers map_obj (district_to_layer !! planning_district)
      = land_use_layer :: others →
    match List.find (λ row, overlaps row.1 parcel_geom || contains row.1 parcel_geom)
                    (rows_of σ land_use_layer "LUC_TEXT") with
    | Some row =>
        ∃ label, row.2 = Some label
                 ∧ land_use_resolver map_obj planning_district parcel_geom σ
                   = (inr (land_use_layer, label), σ, [])
    | None =>
        land_use_resolver map_obj planning_district parcel_geom σ
        = (inl LandUseNotFound, σ, [])
    end.

(** C4 as the specification states it: whatever the reference table, the
    matcher raises nothing and returns the first matching row's pair, or the
    fallback pair when no row matches. *)
Definition matcher_claim (df : list ExcelRow)
    (planning_district land_use_value : string) : Prop :=
  metadata_matcher df planning_district land_use_value =
  inr match List.find (row_mask planning_district land_use_value) df with
      | Some row => (SIZE row, DESC row)
      | None => (CText "Not found", CText "Not found")
      end.

(** C8 as the specification states it: resolving the parcel leaves the
    host state as it was. *)
Definition locator_frame_claim (parcel_layer : Layer) (parcel_number : string)
    (σ : state) : Prop :=
  (parcel_locator parcel_layer parcel_number σ).1.2 = σ.

(** The three places where a layer the script looks up by name can be
    missing: the parcel layer, the district outline feature layer, and the
    land-use layer named by the mapping for the district that Step 2
    resolved. *)
Definition missing_layer (map_obj : MapObj) (parcel_number : string)
    (σ : state) : Prop :=
  listLayers map_obj (Some parcel_layer_name) = []
  ∨ List.filter isFeatureLayer
      (listLayers map_obj (Some district_outline_name)) = []
  ∨ ∃ parcel_layer pls district_layer dls located σ1 district,
      listLayers map_obj (Some parcel_layer_name) = parcel_layer :: pls
      ∧ List.filter isFeatureLayer
          (listLayers map_obj (Some district_outline_name))
        = district_layer :: dls
      ∧ parcel_locator parcel_layer parcel_number σ = (inr located, σ1, [])
      ∧ district_resolver district_layer located.1 σ1 = (inr district, σ1, [])
      ∧ listLayers map_obj (district_to_layer !! district) = [].

(** *** Footprints of computations *)

(** Assignments [(key, value)] applied in order. *)
Fixpoint replay {V} (ws : list (nat * V)) (m : gmap nat V) : gmap nat V :=
  match ws with
  | [] => m
  | (k, v) :: ws' => replay ws' (<[k := v]> m)
  end.

Definition with_queries (qs : list (nat * string)) (σ : state) : state :=
  mkState (replay qs (definitionQuery σ)) (camera_extent σ) (camera_scale σ).

Definition with_cameras (es : list (nat * Extent)) (ss : list (nat * Z))
    (σ : state) : state :=
  mkState (definitionQuery σ) (replay es (camera_extent σ))
          (replay ss (camera_scale σ)).

(** [m] changes nothing, writes nothing out, and its result depends on the
    state through the definition queries only. *)
Definition read_only {A} (m : M A) : Prop :=
  ∀ σ, ∃ r, m σ = (r, σ, [])
            ∧ ∀ σ', definitionQuery σ' = definitionQuery σ → m σ' = (r, σ', []).

(** [m] reads nothing from the state and assigns to cameras only. *)
Definition camera_only {A} (m : M A) : Prop :=
  ∃ r es ss out, ∀ σ, m σ = (r, with_cameras es ss σ, out).

(** An exception that lines 111-148 can end with: a failed lookup, or a
    failure inside [exportToJPEG] or of the summary file. *)
Definition report_error (e : exn) : Prop :=
  e = IndexError ∨ (∃ key, e = KeyError key) ∨ ∃ cls, e = HostError cls.

(** Every exception [m] can end with satisfies [P]. *)
Definition raises_only {A} (P : exn → Prop) (m : M A) : Prop :=
  ∀ σ e σ' out, m σ = (inl e, σ', out) → P e.

(** *** Lines 50-109 as one function of the host data *)

(** The mapping Step 4 builds on a layer, entry by entry. *)
Definition probes (σ : state) (lyr : Layer) (parcel_geom : Geometry)
  : gmap string (option string) :=
  <["West" := zone_at σ lyr (probe_point parcel_geom (-50) 0)]>
  (<["South" := zone_at σ lyr (probe_point parcel_geom 0 (-50))]>
  (<["East" := zone_at σ lyr (probe_point parcel_geom 50 0)]>
  (<["North" := zone_at σ lyr (probe_point parcel_geom 0 50)]> ∅))).

(** What Steps 1 to 5 come to once the three layers are found and the
    query is assigned ([σ] is the state after the assignment). *)
Definition outcome (df : list ExcelRow) (map_obj : MapObj)
    (parcel_layer district_layer : Layer) (σ : state) : exn + resolved :=
  match rows_of σ parcel_layer "ParcelNumber" with
  | [] => inl StopIteration
  | first_row :: _ =>
      let parcel_geom := first_row.1 in
      match label_or DistrictNotFound
              (List.find (λ row, contains row.1 parcel_geom)
                         (rows_of σ district_layer "PLANNAME")) with
      | inl e => inl e
      | inr district =>
          match listLayers map_obj (district_to_layer !! district) with
          | [] => inl IndexError
          | land_use_layer :: _ =>
              match label_or LandUseNotFound
                      (List.find (λ row, overlaps row.1 parcel_geom
                                         || contains row.1 parcel_geom)
                                 (rows_of σ land_use_layer "LUC_TEXT")) with
              | inl e => inl e
              | inr land_use =>
                  match metadata_matcher df district land_use with
                  | inl e => inl e
                  | inr matched =>
                      inr {| parcel_extent := extent parcel_geom;
                             planning_district := district;
                             land_use_value := land_use;
                             directional_land_use :=
                               probes σ land_use_layer parcel_geom;
                             size_ := matched.1;
                             desc_ := matched.2 |}
                  end
              end
          end
      end
  end.

(** The query Step 1 assigns. *)
Definition parcel_query (parcel_layer : Layer) (parcel_number : string)
  : list (nat * string) :=
  [(layer_id parcel_layer, "ParcelNumber = '" +:+ parcel_number +:+ "'")].

(** An item of the output log that is a JPEG export at 300 dpi. *)
Definition is_export (o : output) : Prop :=
  ∃ layout out_path, o = ExportedJPEG layout out_path 300.

(** The exceptions a run can end with. *)
Definition run_error (e : exn) : Prop :=
  e = IndexError ∨ e = StopIteration
  ∨ e = DistrictNotFound ∨ e = LandUseNotFound
  ∨ e = AttributeError ∨ ∃ cls, e = HostError cls.

(** Both key cells of a workbook row are text. *)
Definition text_keys (r : ExcelRow) : bool :=
  match DISTRICT_PLAN r, TYPE r with
  | CText _, CText _ => true
  | _, _ => false
  end.

End Statements.

(** ** Properties *)

Section Properties.

Context `{host : Host}.

Local Open Scope py_scope.

(** *** Cursors and the first-match loop *)

Lemma first_hit_find (test : Geometry → bool)
    (cursor : list (Geometry * option string)) (otherwise : option string) :
  first_hit test cursor otherwise =
  match List.find (λ row, test row.1) cursor with
  | Some row => row.2
  | None => otherwise
  end.
Proof.
  induction cursor as [|row rest IH]; simpl; [done|].
  by destruct (test row.1).
Qed.

Lemma SearchCursor_eq (lyr : Layer) (field : string) (σ : state) :
  SearchCursor lyr field σ = (inr (rows_of σ lyr field), σ, []).
Proof. reflexivity. Qed.

Lemma require_eq (v : option string) (e : exn) (σ : state) :
  require v e σ =
  (match v with
   | Some s => if String.eqb s "" then inl e else inr s
   | None => inl e
   end, σ, []).
Proof.
  destruct v as [s|]; simpl; [|done].
  by destruct (String.eqb s "").
Qed.

(** A district that is not a key of the mapping: the lookup gives [None],
    and the resolver goes on with what [listLayers(None)] gives. *)
Lemma land_use_resolver_unmapped
    (map_obj : MapObj) (planning_district : string) (parcel_geom : Geometry)
    (σ : state) :
  district_to_layer !! planning_district = None →
  land_use_resolver map_obj planning_district parcel_geom σ =
  match listLayers map_obj None with
  | [] => (inl IndexError, σ, [])
  | land_use_layer :: _ =>
      (match label_or LandUseNotFound
               (List.find (λ row, overlaps row.1 parcel_geom
                                  || contains row.1 parcel_geom)
                          (rows_of σ land_use_layer "LUC_TEXT")) with
       | inr label => inr (land_use_layer, label)
       | inl e => inl e
       end, σ, [])
  end.
Proof.
  intros Hnone. unfold land_use_resolver, bind. rewrite Hnone.
  destruct (listLayers map_obj None) as [|lyr lyrs]; simpl; [done|].
  rewrite require_eq, first_hit_find. unfold label_or.
  destruct (List.find _ _) as [[shape [label|]]|]; simpl; try done.
  by destruct (String.eqb label "").
Qed.

(** *** Step 4 *)

(** C1. For every parcel geometry (hence every centroid), land-use layer and
    host state, the Directional Prober ends normally, leaves the state alone,
    writes nothing out, and returns a mapping whose keys are exactly North,
    East, South and West (four entries); each entry is the label of the first
    zone of the layer containing the point at the centroid moved by
    (0,+50), (+50,0), (0,-50), (-50,0) respectively, or "Unknown" when no
    zone contains that point. Whatever follows the prober in the pipeline
    is run with that mapping: a probe that finds no zone does not end the
    run. *)
Theorem directional_prober_four_entries
    (land_use_layer : Layer) (parcel_geom : Geometry) (σ : state) :
  let c := centroid parcel_geom in
  let sr := spatialReference parcel_geom in
  let at_offset dx dy :=
    PointGeometry (coord_add (centroid_X c) dx) (coord_add (centroid_Y c) dy) sr in
  ∃ m : gmap string (option string),
    directional_prober land_use_layer parcel_geom σ = (inr m, σ, [])
    ∧ dom m = {[ "North"; "East"; "South"; "West" ]}
    ∧ base.size m = 4%nat
    ∧ m !! "North" = Some (zone_at σ land_use_layer (at_offset 0 50))
    ∧ m !! "East" = Some (zone_at σ land_use_layer (at_offset 50 0))
    ∧ m !! "South" = Some (zone_at σ land_use_layer (at_offset 0 (-50)))
    ∧ m !! "West" = Some (zone_at σ land_use_layer (at_offset (-50) 0))
    ∧ ∀ (B : Type) (k : gmap string (option string) → M B),
        bind (directional_prober land_use_layer parcel_geom) k σ = k m σ.
Proof.
  intros c sr at_offset.
  pose (v := λ dx dy,
          first_hit (λ shape, contains shape (probe_point parcel_geom dx dy))
                    (rows_of σ land_use_layer "LUC_TEXT") (Some "Unknown")).
  pose (result := <["West" := v (-50) 0]> (<["South" := v 0 (-50)]>
                    (<["East" := v 50 0]> (<["North" := v 0 50]>
                      (∅ : gmap string (option string)))))).
  assert (Hrun : directional_prober land_use_layer parcel_geom σ
                 = (inr result, σ, [])) by reflexivity.
  assert (Hv : ∀ dx dy, v dx dy = zone_at σ land_use_layer (at_offset dx dy)).
  { intros dx dy. unfold v. by rewrite first_hit_find. }
  exists result. split; [exact Hrun|]. unfold result.
  split; [rewrite !dom_insert_L, dom_empty_L; set_solver|].
  split.
  { rewrite !map_size_insert_None, map_size_empty; [done|..];
      by simplify_map_eq. }
  rewrite <- !Hv.
  repeat (split; [by simplify_map_eq|]).
  intros B k. fold result. unfold bind at 1. rewrite Hrun.
  by destruct (k result σ) as [[r σ2] o2].
Qed.

(** *** Step 2 *)

(** C3, amended. For every parcel geometry, the District Resolver looks at
    the first district, in the order the layer yields them, whose polygon
    contains the parcel: it returns that district's PLANNAME when the name is
    non-empty text, and raises the district-not-found exception when the name
    is empty or NULL, or when no district contains the parcel. The state is
    unchanged and nothing is written out. *)
Theorem district_resolver_first_containing
    (district_layer : Layer) (parcel_geom : Geometry) (σ : state) :
  district_resolver district_layer parcel_geom σ =
  (label_or DistrictNotFound
     (List.find (λ row, contains row.1 parcel_geom)
                (rows_of σ district_layer "PLANNAME")),
   σ, []).
Proof.
  unfold district_resolver, bind. rewrite SearchCursor_eq, require_eq.
  rewrite first_hit_find. unfold label_or.
  by destruct (List.find _ _) as [[shape [label|]]|].
Qed.

(** *** Step 3 *)

(** C2, amended. For every parcel geometry and resolved district whose layer
    lookup yields a layer, the Land-Use Resolver looks at the first zone of
    that layer for which [overlaps(zone, parcel) or contains(zone, parcel)]
    holds: it returns that zone's label when the label is non-empty text, and
    raises the land-use-not-found exception when the label is empty or NULL,
    or when no zone satisfies the predicate. *)
Theorem land_use_resolver_first_zone
    (map_obj : MapObj) (planning_district : string) (parcel_geom : Geometry)
    (σ : state) (land_use_layer : Layer) (others : list Layer) :
  listLayers map_obj (district_to_layer !! planning_district)
    = land_use_layer :: others →
  land_use_resolver map_obj planning_district parcel_geom σ =
  (match label_or LandUseNotFound
           (List.find (λ row, overlaps row.1 parcel_geom || contains row.1 parcel_geom)
                      (rows_of σ land_use_layer "LUC_TEXT")) with
   | inr label => inr (land_use_layer, label)
   | inl e => inl e
   end, σ, []).
Proof.
  intros Hlayer. unfold land_use_resolver, bind. rewrite Hlayer. simpl.
  rewrite require_eq, first_hit_find. unfold label_or.
  destruct (List.find _ _) as [[shape [label|]]|]; simpl; try done.
  by destruct (String.eqb label "").
Qed.

(** *** Step 5 *)

Lemma series_eq_spec (c : cell) (s : string) :
  series_eq c s = true ↔ ∃ t, c = CText t ∧ normalize t = s.
Proof.
  unfold series_eq, str_strip_lower. destruct c as [t|shown| |shown].
  - rewrite String.eqb_eq. split; [eauto|]. by intros (t' & [= <-] & ?).
  - split; [done|]. by intros (t' & [=] & ?).
  - split; [done|]. by intros (t' & [=] & ?).
  - split; [done|]. by intros (t' & [=] & ?).
Qed.

Lemma has_str_text (column : list cell) (c : cell) :
  In c column → is_text c = true → has_str column = true.
Proof.
  intros Hin Htext. unfold has_str. destruct column as [|c0 column]; [done|].
  apply orb_true_iff. left. apply existsb_exists. by exists c.
Qed.

Lemma has_str_numeric (column : list cell) :
  column ≠ [] → forallb is_numeric column = true → has_str column = false.
Proof.
  intros Hrows Hnumeric. unfold has_str.
  destruct column as [|c column]; [done|].
  rewrite Hnumeric. simpl negb. rewrite andb_false_l, orb_false_r.
  apply not_true_is_false. intros Htext.
  apply existsb_exists in Htext as (c' & Hin & Hc').
  rewrite forallb_forall in Hnumeric. specialize (Hnumeric c' Hin).
  by destruct c'.
Qed.

Lemma size_desc_find (df : list ExcelRow) (district land_use : string) :
  size_desc (match_ df district land_use) =
  match List.find (row_mask district land_use) df with
  | Some row => (SIZE row, DESC row)
  | None => (CText "Not found", CText "Not found")
  end.
Proof.
  unfold size_desc, match_. induction df as [|row df IH]; simpl; [done|].
  by destruct (row_mask district land_use row).
Qed.

Lemma metadata_matcher_find (df : list ExcelRow) (district land_use : string) :
  has_str (map DISTRICT_PLAN df) = true →
  has_str (map TYPE df) = true →
  metadata_matcher df district land_use =
  inr match List.find (row_mask district land_use) df with
      | Some row => (SIZE row, DESC row)
      | None => (CText "Not found", CText "Not found")
      end.
Proof.
  intros Hd Ht. unfold metadata_matcher. by rewrite Hd, Ht, size_desc_find.
Qed.

(** C4, amended. For every resolved (district, land-use) pair and every
    reference table whose DISTRICT PLAN and TYPE columns the [.str] accessor
    lets through (a table without rows, a column with at least one text
    cell, or a text-less column pandas takes for mixed objects), the
    Metadata Matcher
    returns the (SIZE, DESC) of the first row whose district and type cells
    are text that, trimmed and lowercased, equal the trimmed and lowercased
    resolved pair, and the pair ("Not found", "Not found") when there is no
    such row, raising nothing; so any two spellings of the pair with the
    same trimmed, lowercased form are matched alike. When the accessor
    rejects one of the two columns, as it does a column of numbers and
    blanks only, [AttributeError] is raised. *)
Theorem metadata_matcher_first_row
    (df : list ExcelRow) (planning_district land_use_value : string) :
  (has_str (map DISTRICT_PLAN df) = true →
   has_str (map TYPE df) = true →
   metadata_matcher df planning_district land_use_value =
   inr match List.find (row_mask planning_district land_use_value) df with
       | Some row => (SIZE row, DESC row)
       | None => (CText "Not found", CText "Not found")
       end)
  ∧ (has_str (map DISTRICT_PLAN df) = false ∨ has_str (map TYPE df) = false →
     metadata_matcher df planning_district land_use_value = inl AttributeError)
  ∧ (df ≠ [] →
     forallb is_numeric (map DISTRICT_PLAN df) = true
     ∨ forallb is_numeric (map TYPE df) = true →
     metadata_matcher df planning_district land_use_value = inl AttributeError)
  ∧ (df = [] ∨ (∃ r1 r2, In r1 df ∧ In r2 df
                          ∧ is_text (DISTRICT_PLAN r1) = true
                          ∧ is_text (TYPE r2) = true) →
     has_str (map DISTRICT_PLAN df) = true ∧ has_str (map TYPE df) = true)
  ∧ (∀ row, row_mask planning_district land_use_value row = true ↔
       ∃ d t, DISTRICT_PLAN row = CText d ∧ TYPE row = CText t
              ∧ str_lower (str_strip d) = str_lower (str_strip planning_district)
              ∧ str_lower (str_strip t) = str_lower (str_strip land_use_value))
  ∧ (∀ d' t',
       str_lower (str_strip d') = str_lower (str_strip planning_district) →
       str_lower (str_strip t') = str_lower (str_strip land_use_value) →
       metadata_matcher df d' t'
       = metadata_matcher df planning_district land_use_value).
Proof.
  assert (Hreject :
    has_str (map DISTRICT_PLAN df) = false ∨ has_str (map TYPE df) = false →
    metadata_matcher df planning_district land_use_value = inl AttributeError).
  { unfold metadata_matcher. intros [Hd|Ht].
    - by rewrite Hd.
    - rewrite Ht. by destruct (has_str (map DISTRICT_PLAN df)). }
  split; [apply metadata_matcher_find|]. split; [exact Hreject|].
  split.
  { intros Hrows Hnumeric. apply Hreject.
    assert (Hd : map DISTRICT_PLAN df ≠ []) by (by destruct df).
    assert (Ht : map TYPE df ≠ []) by (by destruct df).
    destruct Hnumeric as [Hn|Hn]; [left|right]; by apply has_str_numeric. }
  split.
  { intros [->|(r1 & r2 & H1 & H2 & T1 & T2)]; [done|]. split.
    - apply (has_str_text _ (DISTRICT_PLAN r1)); [by apply in_map|done].
    - apply (has_str_text _ (TYPE r2)); [by apply in_map|done]. }
  split.
  - intros row. unfold row_mask.
    rewrite andb_true_iff, !series_eq_spec. unfold normalize.
    split.
    + intros [(d & Hd & Hnd) (t & Ht & Hnt)]. by exists d, t.
    + intros (d & t & Hd & Ht & Hnd & Hnt). split; eauto.
  - intros d' t' Hd Ht.
    unfold metadata_matcher, match_, row_mask, normalize. by rewrite Hd, Ht.
Qed.

(** *** The monad *)

Lemma bind_assoc {A B C} (m : M A) (f : A → M B) (k : B → M C) (σ : state) :
  bind (bind m f) k σ = bind m (λ a, bind (f a) k) σ.
Proof.
  unfold bind. destruct (m σ) as [[[e|a] σ1] o1]; [done|].
  destruct (f a σ1) as [[[e|b] σ2] o2]; [done|].
  destruct (k b σ2) as [[r σ3] o3]. by rewrite app_assoc.
Qed.

Lemma bind_modify {B} (f : state → state) (k : unit → M B) (σ : state) :
  bind (modify f) k σ = k tt (f σ).
Proof. unfold bind, modify. by destruct (k tt (f σ)) as [[r σ2] o2]. Qed.

Lemma bind_ret {A B} (a : A) (k : A → M B) (σ : state) :
  bind (ret a) k σ = k a σ.
Proof. unfold bind, ret. by destruct (k a σ) as [[r σ2] o2]. Qed.

Lemma bind_raise {A B} (e : exn) (k : A → M B) (σ : state) :
  bind (raise e) k σ = (inl e, σ, []).
Proof. reflexivity. Qed.

(** *** Read-only computations *)

Lemma rows_of_query (σ σ' : state) (lyr : Layer) (field : string) :
  definitionQuery σ' = definitionQuery σ → rows_of σ' lyr field = rows_of σ lyr field.
Proof. intros Hq. unfold rows_of, query_of. by rewrite Hq. Qed.

Lemma read_only_ret {A} (a : A) : read_only (ret a).
Proof. intros σ. by exists (inr a). Qed.

Lemma read_only_raise {A} (e : exn) : read_only (raise (A:=A) e).
Proof. intros σ. by exists (inl e). Qed.

Lemma read_only_bind {A B} (m : M A) (k : A → M B) :
  read_only m → (∀ a, read_only (k a)) → read_only (bind m k).
Proof.
  intros Hm Hk σ. destruct (Hm σ) as (r & Hr & Hr').
  destruct r as [e|a].
  - exists (inl e). split.
    + unfold bind. by rewrite Hr.
    + intros σ' Hq. unfold bind. by rewrite (Hr' σ' Hq).
  - destruct (Hk a σ) as (r2 & Hr2 & Hr2'). exists r2. split.
    + unfold bind. by rewrite Hr, Hr2.
    + intros σ' Hq. unfold bind. by rewrite (Hr' σ' Hq), (Hr2' σ' Hq).
Qed.

Lemma read_only_lift {A} (r : exn + A) : read_only (lift r).
Proof. destruct r; [apply read_only_raise | apply read_only_ret]. Qed.

Lemma read_only_index0 {A} (l : list A) : read_only (index0 l).
Proof. destruct l; [apply read_only_raise | apply read_only_ret]. Qed.

Lemma read_only_next {A} (l : list A) : read_only (next l).
Proof. destruct l; [apply read_only_raise | apply read_only_ret]. Qed.

Lemma read_only_require (v : option string) (e : exn) : read_only (require v e).
Proof.
  intros σ. eexists. split; [apply require_eq|].
  intros σ' _. apply require_eq.
Qed.

Lemma read_only_SearchCursor (lyr : Layer) (field : string) :
  read_only (SearchCursor lyr field).
Proof.
  intros σ. exists (inr (rows_of σ lyr field)). split; [done|].
  intros σ' Hq. by rewrite SearchCursor_eq, (rows_of_query σ σ').
Qed.

Lemma read_only_probe_each (dirs : list (string * (Z * Z))) (lyr : Layer)
    (parcel_geom : Geometry) (acc : gmap string (option string)) :
  read_only (probe_each dirs lyr parcel_geom acc).
Proof.
  revert acc. induction dirs as [|[dir [dx dy]] dirs IH]; intros acc; simpl.
  - apply read_only_ret.
  - apply read_only_bind; [apply read_only_SearchCursor|]. intros cursor. apply IH.
Qed.

Lemma read_only_district_resolver (lyr : Layer) (parcel_geom : Geometry) :
  read_only (district_resolver lyr parcel_geom).
Proof.
  apply read_only_bind; [apply read_only_SearchCursor|].
  intros cursor. apply read_only_require.
Qed.

Lemma read_only_land_use_resolver (map_obj : MapObj) (district : string)
    (parcel_geom : Geometry) :
  read_only (land_use_resolver map_obj district parcel_geom).
Proof.
  apply read_only_bind; [apply read_only_index0|]. intros lyr.
  apply read_only_bind; [apply read_only_SearchCursor|]. intros cursor.
  apply read_only_bind; [apply read_only_require|]. intros v.
  apply read_only_ret.
Qed.

Lemma read_only_directional_prober (lyr : Layer) (parcel_geom : Geometry) :
  read_only (directional_prober lyr parcel_geom).
Proof. apply read_only_probe_each. Qed.

(** *** Step 1 *)

Lemma state_eta (σ : state) :
  mkState (definitionQuery σ) (camera_extent σ) (camera_scale σ) = σ.
Proof. by destruct σ. Qed.

Lemma parcel_locator_eq (parcel_layer : Layer) (parcel_number : string)
    (σ : state) :
  let q := "ParcelNumber = '" +:+ parcel_number +:+ "'" in
  let σ' := with_queries [(layer_id parcel_layer, q)] σ in
  parcel_locator parcel_layer parcel_number σ =
  (match rows_of σ' parcel_layer "ParcelNumber" with
   | row :: _ => inr (row.1, extent row.1)
   | [] => inl StopIteration
   end, σ', []).
Proof.
  intros q σ'. unfold parcel_locator, set_definitionQuery.
  rewrite bind_modify. fold q. unfold bind. rewrite SearchCursor_eq.
  unfold with_queries in σ'. simpl in σ'. fold σ'.
  by destruct (rows_of σ' parcel_layer "ParcelNumber").
Qed.

(** C8, amended. For every parcel identifier, the one effect of the Parcel
    Locator on the host is that the parcel layer's definition query becomes
    [ParcelNumber = '<identifier>']: the definition query of every other
    layer, every camera extent and scale are as before, and nothing is
    written out. Its result is the shape and extent of the first feature the
    filtered layer yields, or [StopIteration] when it yields none. *)
Theorem parcel_locator_sets_query_only
    (parcel_layer : Layer) (parcel_number : string) (σ : state) :
  let q := "ParcelNumber = '" +:+ parcel_number +:+ "'" in
  ∃ r σ',
    parcel_locator parcel_layer parcel_number σ = (r, σ', [])
    ∧ definitionQuery σ' !! layer_id parcel_layer = Some q
    ∧ (∀ id, id ≠ layer_id parcel_layer →
             definitionQuery σ' !! id = definitionQuery σ !! id)
    ∧ camera_extent σ' = camera_extent σ
    ∧ camera_scale σ' = camera_scale σ
    ∧ r = match rows_of σ' parcel_layer "ParcelNumber" with
          | row :: _ => inr (row.1, extent row.1)
          | [] => inl StopIteration
          end.
Proof.
  intros q. eexists _, _. split; [apply parcel_locator_eq|]. simpl.
  split; [by rewrite lookup_insert_eq|].
  split; [intros id Hid; by rewrite lookup_insert_ne|]. done.
Qed.

(** *** Lines 50-109 *)

Lemma with_queries_nil (σ : state) : with_queries [] σ = σ.
Proof. apply state_eta. Qed.

(** A read-only computation run after Step 1: the query assignment is the
    only change, and running the whole again on a state that already carries
    the query gives the same result and changes nothing. *)
Lemma after_parcel_locator {A} (parcel_layer : Layer) (parcel_number : string)
    (k : Geometry * Extent → M A) (σ : state) :
  (∀ located, read_only (k located)) →
  let qs := [(layer_id parcel_layer, "ParcelNumber = '" +:+ parcel_number +:+ "'")] in
  ∃ r,
    bind (parcel_locator parcel_layer parcel_number) k σ = (r, with_queries qs σ, [])
    ∧ ∀ σ', definitionQuery σ' = replay qs (definitionQuery σ) →
            bind (parcel_locator parcel_layer parcel_number) k σ' = (r, σ', []).
Proof.
  intros Hk qs.
  set (q := "ParcelNumber = '" +:+ parcel_number +:+ "'") in qs.
  assert (Hrun : ∀ τ, bind (parcel_locator parcel_layer parcel_number) k τ =
     bind (bind (SearchCursor parcel_layer "ParcelNumber")
                (λ cursor, bind (next cursor)
                   (λ row, ret (row.1, extent row.1)))) k
          (with_queries qs τ)).
  { intros τ. unfold parcel_locator, set_definitionQuery.
    by rewrite bind_assoc, bind_modify. }
  match type of Hrun with
  | ∀ τ, _ = ?t _ => set (tail := t) in Hrun
  end.
  assert (Htail : read_only tail).
  { apply read_only_bind; [|exact Hk].
    apply read_only_bind; [apply read_only_SearchCursor|]. intros cursor.
    apply read_only_bind; [apply read_only_next|]. intros row.
    apply read_only_ret. }
  destruct (Htail (with_queries qs σ)) as (r & Hr & Hr').
  exists r. split; [by rewrite Hrun|].
  intros σ' Hq. rewrite Hrun.
  assert (Hsame : with_queries qs σ' = σ').
  { unfold with_queries. simpl. simpl in Hq.
    rewrite Hq, insert_insert_eq, <- Hq. apply state_eta. }
  rewrite Hsame. apply Hr'. by rewrite Hq.
Qed.

Lemma resolution_footprint (df : list ExcelRow) (project : ArcGISProject)
    (parcel_number : string) (σ : state) :
  ∃ r qs,
    resolution df project parcel_number σ = (r, with_queries qs σ, [])
    ∧ ∀ σ', definitionQuery σ' = replay qs (definitionQuery σ) →
            resolution df project parcel_number σ' = (r, σ', []).
Proof.
  unfold resolution.
  destruct (listMaps project) as [|map_obj maps].
  { exists (inl IndexError), []. by rewrite with_queries_nil. }
  simpl index0. setoid_rewrite bind_ret.
  destruct (listLayers map_obj (Some parcel_layer_name)) as [|parcel_layer pls].
  { exists (inl IndexError), []. by rewrite with_queries_nil. }
  simpl index0. setoid_rewrite bind_ret.
  destruct (List.filter isFeatureLayer
              (listLayers map_obj (Some district_outline_name)))
    as [|district_layer dls].
  { exists (inl IndexError), []. by rewrite with_queries_nil. }
  simpl index0. setoid_rewrite bind_ret.
  match goal with
  | |- context [bind (parcel_locator _ _) ?k σ] =>
      destruct (after_parcel_locator parcel_layer parcel_number k σ) as (r & Hr)
  end.
  { intros located.
    apply read_only_bind; [apply read_only_district_resolver|]. intros district.
    apply read_only_bind; [apply read_only_land_use_resolver|]. intros land_use.
    apply read_only_bind; [apply read_only_directional_prober|]. intros directional.
    apply read_only_bind; [apply read_only_lift|]. intros matched.
    apply read_only_ret. }
  by exists r, [(layer_id parcel_layer,
                 "ParcelNumber = '" +:+ parcel_number +:+ "'")].
Qed.

(** *** Replayed assignments *)

Lemma replay_app {V} (ws1 ws2 : list (nat * V)) (m : gmap nat V) :
  replay (ws1 ++ ws2) m = replay ws2 (replay ws1 m).
Proof.
  revert m. induction ws1 as [|[k v] ws1 IH]; intros m; simpl; [done|].
  apply IH.
Qed.

Lemma lookup_replay {V} (ws : list (nat * V)) (m : gmap nat V) (k : nat) :
  replay ws m !! k =
  match replay ws ∅ !! k with
  | Some v => Some v
  | None => m !! k
  end.
Proof.
  revert m. induction ws as [|[k0 v0] ws IH]; intros m; simpl.
  - by rewrite lookup_empty.
  - rewrite (IH (<[k0 := v0]> m)), (IH (<[k0 := v0]> ∅)).
    destruct (replay ws ∅ !! k); [done|].
    destruct (decide (k0 = k)) as [->|Hne].
    + by rewrite !lookup_insert_eq.
    + by rewrite !lookup_insert_ne, lookup_empty.
Qed.

Lemma replay_idemp {V} (ws : list (nat * V)) (m : gmap nat V) :
  replay ws (replay ws m) = replay ws m.
Proof.
  apply map_eq. intros k.
  rewrite (lookup_replay ws (replay ws m)), (lookup_replay ws m).
  by destruct (replay ws ∅ !! k).
Qed.

Lemma with_cameras_idemp (es : list (nat * Extent)) (ss : list (nat * Z))
    (σ : state) :
  with_cameras es ss (with_cameras es ss σ) = with_cameras es ss σ.
Proof. unfold with_cameras. simpl. by rewrite !replay_idemp. Qed.

Lemma with_cameras_app (es1 es2 : list (nat * Extent)) (ss1 ss2 : list (nat * Z))
    (σ : state) :
  with_cameras es2 ss2 (with_cameras es1 ss1 σ)
  = with_cameras (es1 ++ es2) (ss1 ++ ss2) σ.
Proof. unfold with_cameras. simpl. by rewrite !replay_app. Qed.

(** *** Camera-only computations *)

Lemma camera_only_ret {A} (a : A) : camera_only (ret a).
Proof. exists (inr a), [], [], []. intros σ. unfold ret. f_equal. f_equal. symmetry. apply state_eta. Qed.

Lemma camera_only_raise {A} (e : exn) : camera_only (raise (A:=A) e).
Proof. exists (inl e), [], [], []. intros σ. unfold raise. f_equal. f_equal. symmetry. apply state_eta. Qed.

Lemma camera_only_emit (o : output) : camera_only (emit o).
Proof. exists (inr tt), [], [], [o]. intros σ. unfold emit. f_equal. f_equal. symmetry. apply state_eta. Qed.

Lemma camera_only_bind {A B} (m : M A) (k : A → M B) :
  camera_only m → (∀ a, camera_only (k a)) → camera_only (bind m k).
Proof.
  intros (r & es & ss & out & Hm) Hk. destruct r as [e|a].
  - exists (inl e), es, ss, out. intros σ. unfold bind. by rewrite Hm.
  - destruct (Hk a) as (r2 & es2 & ss2 & out2 & Hk2).
    exists r2, (es ++ es2), (ss ++ ss2), (out ++ out2). intros σ.
    unfold bind. by rewrite Hm, Hk2, with_cameras_app.
Qed.

Lemma camera_only_exportToJPEG (layout : Layout) (out_path : string)
    (resolution : Z) :
  camera_only (exportToJPEG layout out_path resolution).
Proof.
  unfold exportToJPEG. destruct (export_failure _ _);
    [apply camera_only_raise | apply camera_only_emit].
Qed.

Lemma camera_only_write_file (path text : string) :
  camera_only (write_file path text).
Proof.
  unfold write_file. destruct (write_failure _ _);
    [apply camera_only_raise | apply camera_only_emit].
Qed.

Lemma camera_only_index0 {A} (l : list A) : camera_only (index0 l).
Proof. destruct l; [apply camera_only_raise | apply camera_only_ret]. Qed.

Lemma camera_only_getitem {A} (d : gmap string A) (key : string) :
  camera_only (getitem d key).
Proof.
  unfold getitem. destruct (d !! key); [apply camera_only_ret | apply camera_only_raise].
Qed.

Lemma camera_only_setExtent (map_frame : nat) (e : Extent) :
  camera_only (setExtent map_frame e).
Proof. by exists (inr tt), [(map_frame, e)], [], []. Qed.

Lemma camera_only_set_scale (map_frame : nat) (s : Z) :
  camera_only (set_scale map_frame s).
Proof. by exists (inr tt), [], [(map_frame, s)], []. Qed.

Lemma camera_only_export_each (exports : list (string * (string * option Z)))
    (project : ArcGISProject) (e : Extent) (parcel_number output_folder : string) :
  camera_only (export_each exports project e parcel_number output_folder).
Proof.
  induction exports as [|[layout_name [frame scale]] exports IH]; simpl.
  - apply camera_only_ret.
  - apply camera_only_bind; [apply camera_only_index0|]. intros layout.
    apply camera_only_bind; [apply camera_only_index0|]. intros map_frame.
    apply camera_only_bind; [apply camera_only_setExtent|]. intros _.
    apply camera_only_bind.
    { destruct scale as [s|]; [|apply camera_only_ret].
      destruct (s =? 0); [apply camera_only_ret | apply camera_only_set_scale]. }
    intros _. apply camera_only_bind; [apply camera_only_exportToJPEG|].
    intros _. apply IH.
Qed.

Lemma camera_only_report (project : ArcGISProject)
    (parcel_number output_folder : string) (r : resolved) :
  camera_only (report project parcel_number output_folder r).
Proof.
  unfold report.
  apply camera_only_bind; [apply camera_only_export_each|]. intros _.
  do 4 (apply camera_only_bind; [apply camera_only_getitem|]; intros ?).
  apply camera_only_bind; [apply camera_only_write_file|]. intros _.
  apply camera_only_emit.
Qed.

Lemma run_eq (df : list ExcelRow) (project : ArcGISProject)
    (parcel_number output_folder : string) (σ : state) :
  run df project parcel_number output_folder σ =
  match resolution df project parcel_number σ with
  | (inl e, σ1, out1) => (inl e, σ1, out1)
  | (inr r, σ1, out1) =>
      match report project parcel_number output_folder r σ1 with
      | (res, σ2, out2) => (res, σ2, out1 ++ out2)
      end
  end.
Proof. reflexivity. Qed.

(** C9. For every parcel identifier, workbook, project and host state,
    running the pipeline a second time, on the state the first run left
    behind, ends the same way (normally, or with the same exception), writes
    out the same items byte for byte (the same summary text under the same
    path, the same exports), and leaves the state as the first run left
    it. *)
Theorem rerun_same_report (df : list ExcelRow) (project : ArcGISProject)
    (parcel_number output_folder : string) (σ : state) :
  let first := run df project parcel_number output_folder σ in
  run df project parcel_number output_folder first.1.2 = first.
Proof.
  intros first. subst first.
  destruct (resolution_footprint df project parcel_number σ)
    as (r & qs & Hr & Hr').
  rewrite (run_eq df project parcel_number output_folder σ), Hr.
  destruct r as [e|v].
  - simpl. by rewrite run_eq, (Hr' (with_queries qs σ)).
  - destruct (camera_only_report project parcel_number output_folder v)
      as (res & es & ss & out & Hrep).
    rewrite Hrep. simpl.
    rewrite run_eq, (Hr' (with_cameras es ss (with_queries qs σ))) by done.
    by rewrite Hrep, with_cameras_idemp.
Qed.

(** *** Exceptions of lines 111-148 *)

Lemma raises_only_ret {A} (P : exn → Prop) (a : A) : raises_only P (ret a).
Proof. intros σ e σ' out [=]. Qed.

Lemma raises_only_raise {A} (P : exn → Prop) (e : exn) :
  P e → raises_only P (raise (A:=A) e).
Proof. intros He σ e' σ' out [= <- _ _]. exact He. Qed.

Lemma raises_only_modify (P : exn → Prop) (f : state → state) :
  raises_only P (modify f).
Proof. intros σ e σ' out [=]. Qed.

Lemma raises_only_emit (P : exn → Prop) (o : output) : raises_only P (emit o).
Proof. intros σ e σ' out [=]. Qed.

Lemma raises_only_bind {A B} (P : exn → Prop) (m : M A) (k : A → M B) :
  raises_only P m → (∀ a, raises_only P (k a)) → raises_only P (bind m k).
Proof.
  intros Hm Hk σ e σ' out. unfold bind.
  destruct (m σ) as [[[e1|a] σ1] o1] eqn:Hrun.
  - intros [= <- _ _]. by eapply Hm.
  - destruct (k a σ1) as [[r σ2] o2] eqn:Hrun2.
    intros [= -> _ _]. by eapply Hk.
Qed.

Lemma raises_only_index0 {A} (P : exn → Prop) (l : list A) :
  P IndexError → raises_only P (index0 l).
Proof. destruct l; [apply raises_only_raise | intros _; apply raises_only_ret]. Qed.

Lemma raises_only_getitem {A} (P : exn → Prop) (d : gmap string A) (key : string) :
  P (KeyError key) → raises_only P (getitem d key).
Proof.
  unfold getitem.
  destruct (d !! key); [intros _; apply raises_only_ret | apply raises_only_raise].
Qed.

Lemma raises_only_exportToJPEG (layout : Layout) (out_path : string)
    (resolution : Z) :
  raises_only report_error (exportToJPEG layout out_path resolution).
Proof.
  unfold exportToJPEG. destruct (export_failure _ _) as [cls|];
    [|apply raises_only_emit].
  apply raises_only_raise. right. right. by exists cls.
Qed.

Lemma raises_only_write_file (path text : string) :
  raises_only report_error (write_file path text).
Proof.
  unfold write_file. destruct (write_failure _ _) as [cls|];
    [|apply raises_only_emit].
  apply raises_only_raise. right. right. by exists cls.
Qed.

Lemma raises_only_export_each (exports : list (string * (string * option Z)))
    (project : ArcGISProject) (e : Extent) (parcel_number output_folder : string) :
  raises_only report_error
    (export_each exports project e parcel_number output_folder).
Proof.
  induction exports as [|[layout_name [frame scale]] exports IH]; simpl.
  - apply raises_only_ret.
  - apply raises_only_bind; [apply raises_only_index0; by left|]. intros layout.
    apply raises_only_bind; [apply raises_only_index0; by left|]. intros map_frame.
    apply raises_only_bind; [apply raises_only_modify|]. intros _.
    apply raises_only_bind.
    { destruct scale as [s|]; [|apply raises_only_ret].
      destruct (s =? 0); [apply raises_only_ret | apply raises_only_modify]. }
    intros _. apply raises_only_bind; [apply raises_only_exportToJPEG|].
    intros _. apply IH.
Qed.

Lemma raises_only_report (project : ArcGISProject)
    (parcel_number output_folder : string) (r : resolved) :
  raises_only report_error (report project parcel_number output_folder r).
Proof.
  unfold report.
  apply raises_only_bind; [apply raises_only_export_each|]. intros _.
  do 4 (apply raises_only_bind;
        [apply raises_only_getitem; right; left; by eexists|]; intros ?).
  apply raises_only_bind; [apply raises_only_write_file|]. intros _.
  apply raises_only_emit.
Qed.

(** C7. For every run that ends with one of the exceptions the script has
    for the fatal conditions of Steps 1 to 3 ([StopIteration] for a parcel
    that is not found, the district-not-found and the land-use-not-found
    exceptions), nothing has been written out: no layout was exported, no
    summary file was written, no message was posted, and no camera was
    moved. *)
Theorem fatal_error_no_output (df : list ExcelRow) (project : ArcGISProject)
    (parcel_number output_folder : string) (σ σ' : state) (e : exn)
    (out : list output) :
  run df project parcel_number output_folder σ = (inl e, σ', out) →
  e = StopIteration ∨ e = DistrictNotFound ∨ e = LandUseNotFound →
  out = []
  ∧ camera_extent σ' = camera_extent σ
  ∧ camera_scale σ' = camera_scale σ.
Proof.
  intros Hrun Hfatal. rewrite run_eq in Hrun.
  destruct (resolution_footprint df project parcel_number σ)
    as (r & qs & Hr & _).
  rewrite Hr in Hrun. destruct r as [e0|v].
  - by injection Hrun as <- <- <-.
  - destruct (report project parcel_number output_folder v (with_queries qs σ))
      as [[res σ2] out2] eqn:Hrep.
    injection Hrun as -> -> <-.
    apply raises_only_report in Hrep.
    destruct Hrep as [->|[[key ->]|[cls ->]]];
      by destruct Hfatal as [?|[?|?]].
Qed.

(** C10. For every run in which the project has a map and a layer looked up
    by name is missing (the parcel layer, the district outline feature
    layer, or the layer the mapping names for the resolved district), the run
    ends with [IndexError], which is neither of the two exceptions the script
    raises itself, and nothing is written out. *)
Theorem missing_layer_IndexError (df : list ExcelRow) (project : ArcGISProject)
    (parcel_number output_folder : string) (σ : state)
    (map_obj : MapObj) (maps : list MapObj) :
  listMaps project = map_obj :: maps →
  missing_layer map_obj parcel_number σ →
  (∃ σ', run df project parcel_number output_folder σ = (inl IndexError, σ', []))
  ∧ IndexError ≠ DistrictNotFound
  ∧ IndexError ≠ LandUseNotFound.
Proof.
  intros Hmap Hmissing. split; [|done].
  rewrite run_eq. unfold resolution. rewrite Hmap. simpl index0. rewrite bind_ret.
  destruct Hmissing as [Hpl|[Hdl|Hlu]].
  - rewrite Hpl. by eexists.
  - destruct (listLayers map_obj (Some parcel_layer_name)) as [|pl pls];
      [by eexists|].
    simpl index0. rewrite bind_ret, Hdl. by eexists.
  - destruct Hlu as (pl & pls & dl & dls & located & σ1 & district
                     & Hpl & Hdl & Hloc & Hdis & Hlu).
    rewrite Hpl. simpl index0. rewrite bind_ret, Hdl. simpl index0.
    rewrite bind_ret. unfold bind at 1. rewrite Hloc.
    unfold bind at 1. rewrite Hdis.
    unfold bind at 1. unfold land_use_resolver. rewrite Hlu. simpl.
    by eexists.
Qed.

(** *** Lines 50-109 as a whole *)

Lemma bind_step {A B} (m : M A) (k : A → M B) (σ σ1 : state) (r : exn + A) :
  m σ = (r, σ1, []) →
  bind m k σ = match r with
               | inl e => (inl e, σ1, [])
               | inr a => k a σ1
               end.
Proof.
  intros Hm. unfold bind. rewrite Hm. destruct r as [e|a]; [done|].
  by destruct (k a σ1) as [[r2 σ2] o2].
Qed.

Lemma lift_eq {A} (r : exn + A) (σ : state) : lift r σ = (r, σ, []).
Proof. by destruct r. Qed.

Lemma scan_require (lyr : Layer) (field : string) (test : Geometry → bool)
    (e : exn) (σ : state) :
  bind (SearchCursor lyr field)
       (λ cursor, require (first_hit test cursor None) e) σ
  = (label_or e (List.find (λ row, test row.1) (rows_of σ lyr field)), σ, []).
Proof.
  rewrite (bind_step _ _ _ _ _ (SearchCursor_eq lyr field σ)).
  rewrite require_eq, first_hit_find. unfold label_or.
  by destruct (List.find _ _) as [[shape [label|]]|].
Qed.

Lemma directional_prober_eq (lyr : Layer) (parcel_geom : Geometry) (σ : state) :
  directional_prober lyr parcel_geom σ = (inr (probes σ lyr parcel_geom), σ, []).
Proof.
  unfold directional_prober, directions, probe_each, bind.
  rewrite !SearchCursor_eq. simpl. by rewrite !first_hit_find.
Qed.

Lemma land_use_resolver_eq (map_obj : MapObj) (district : string)
    (parcel_geom : Geometry) (σ : state) :
  land_use_resolver map_obj district parcel_geom σ =
  match listLayers map_obj (district_to_layer !! district) with
  | [] => (inl IndexError, σ, [])
  | land_use_layer :: _ =>
      (match label_or LandUseNotFound
               (List.find (λ row, overlaps row.1 parcel_geom
                                  || contains row.1 parcel_geom)
                          (rows_of σ land_use_layer "LUC_TEXT")) with
       | inr label => inr (land_use_layer, label)
       | inl e => inl e
       end, σ, [])
  end.
Proof.
  unfold land_use_resolver, bind.
  destruct (listLayers map_obj _) as [|lyr lyrs]; simpl; [done|].
  rewrite require_eq, first_hit_find. unfold label_or.
  destruct (List.find _ _) as [[shape [label|]]|]; simpl; try done.
  by destruct (String.eqb label "").
Qed.

Lemma resolution_cases (df : list ExcelRow) (project : ArcGISProject)
    (parcel_number : string) (σ : state) :
  resolution df project parcel_number σ =
  match listMaps project with
  | [] => (inl IndexError, σ, [])
  | map_obj :: _ =>
      match listLayers map_obj (Some parcel_layer_name) with
      | [] => (inl IndexError, σ, [])
      | parcel_layer :: _ =>
          match List.filter isFeatureLayer
                  (listLayers map_obj (Some district_outline_name)) with
          | [] => (inl IndexError, σ, [])
          | district_layer :: _ =>
              let σ1 := with_queries (parcel_query parcel_layer parcel_number) σ in
              (outcome df map_obj parcel_layer district_layer σ1, σ1, [])
          end
      end
  end.
Proof.
  unfold resolution.
  destruct (listMaps project) as [|map_obj maps]; [done|].
  simpl index0. rewrite bind_ret.
  destruct (listLayers map_obj (Some parcel_layer_name)) as [|pl pls]; [done|].
  simpl index0. rewrite bind_ret.
  destruct (List.filter _ _) as [|dl dls]; [done|].
  simpl index0. rewrite bind_ret.
  erewrite bind_step by apply parcel_locator_eq.
  unfold outcome, parcel_query. cbv zeta.
  set (σ1 := with_queries _ σ).
  destruct (rows_of σ1 pl "ParcelNumber") as [|first_row rows]; [done|].
  simpl fst. simpl snd.
  unfold district_resolver.
  erewrite bind_step by apply scan_require.
  destruct (label_or DistrictNotFound _) as [e|district]; [done|].
  unfold bind at 1. rewrite land_use_resolver_eq.
  destruct (listLayers map_obj (district_to_layer !! district)) as [|lul luls];
    [done|].
  destruct (label_or LandUseNotFound _) as [e|land_use]; [done|].
  erewrite bind_step by apply directional_prober_eq.
  cbv beta iota. erewrite bind_step by apply lift_eq.
  simpl snd. simpl fst.
  by destruct (metadata_matcher df district land_use).
Qed.

Lemma label_or_inr (e : exn) (row : option (Geometry * option string))
    (label : string) :
  label_or e row = inr label →
  label ≠ "" ∧ ∃ shape, row = Some (shape, Some label).
Proof.
  unfold label_or. destruct row as [[shape [l|]]|]; try done.
  destruct (String.eqb l "") eqn:Hl; [done|].
  intros [= ->]. split; [|by exists shape].
  intros ->. by rewrite String.eqb_refl in Hl.
Qed.

Lemma label_or_inl (e e' : exn) (row : option (Geometry * option string)) :
  label_or e row = inl e' → e' = e.
Proof.
  unfold label_or. destruct row as [[shape [l|]]|]; try by intros [=].
  destruct (String.eqb l ""); by intros [=].
Qed.

Lemma metadata_matcher_inl (df : list ExcelRow) (district land_use : string)
    (e : exn) :
  metadata_matcher df district land_use = inl e → e = AttributeError.
Proof.
  unfold metadata_matcher.
  destruct (has_str (map DISTRICT_PLAN df)), (has_str (map TYPE df));
    by intros [=].
Qed.

Lemma outcome_inl (df : list ExcelRow) (map_obj : MapObj)
    (parcel_layer district_layer : Layer) (σ : state) (e : exn) :
  outcome df map_obj parcel_layer district_layer σ = inl e → run_error e.
Proof.
  unfold outcome, run_error.
  destruct (rows_of σ parcel_layer "ParcelNumber") as [|first_row rows];
    [intros [= <-]; tauto|].
  cbv zeta.
  destruct (label_or DistrictNotFound _) as [e1|district] eqn:Hd.
  { intros [= <-]. apply label_or_inl in Hd. tauto. }
  destruct (listLayers map_obj _) as [|lul luls]; [intros [= <-]; tauto|].
  destruct (label_or LandUseNotFound _) as [e2|land_use] eqn:Hl.
  { intros [= <-]. apply label_or_inl in Hl. tauto. }
  destruct (metadata_matcher df district land_use) as [e3|matched] eqn:Hm;
    [|done].
  intros [= <-]. apply metadata_matcher_inl in Hm. tauto.
Qed.

Lemma rows_of_In (σ : state) (lyr : Layer) (field : string)
    (row : Geometry * option string) :
  In row (rows_of σ lyr field) →
  ∃ f, In f (features lyr) ∧ SHAPE f = row.1 ∧ attr f field = row.2
       ∧ sql_select (query_of σ lyr) (attr f) = true.
Proof.
  unfold rows_of. rewrite in_map_iff. intros (f & <- & Hf).
  apply filter_In in Hf as [Hin Hsel]. by exists f.
Qed.

(** X4. A resolution that succeeds has a non-empty district name and a
    non-empty land-use label; the district name is the PLANNAME of a feature
    of the first feature layer found for the district outline, whose shape
    contains the shape of a feature of the first layer found for the parcel,
    whose extent is the one resolved; the directional mapping
    has exactly the four keys; the metadata pair is the matcher's result for
    the resolved labels, which did not raise; and nothing was written
    out. *)
Theorem resolution_success_fields (df : list ExcelRow)
    (project : ArcGISProject) (parcel_number : string) (σ σ' : state)
    (r : resolved) (out : list output) :
  resolution df project parcel_number σ = (inr r, σ', out) →
  planning_district r ≠ ""
  ∧ land_use_value r ≠ ""
  ∧ (∃ map_obj parcel_layer district_layer parcel district,
       head (listMaps project) = Some map_obj
       ∧ head (listLayers map_obj (Some parcel_layer_name)) = Some parcel_layer
       ∧ head (List.filter isFeatureLayer
                 (listLayers map_obj (Some district_outline_name)))
         = Some district_layer
       ∧ isFeatureLayer district_layer = true
       ∧ In parcel (features parcel_layer)
       ∧ In district (features district_layer)
       ∧ attr district "PLANNAME" = Some (planning_district r)
       ∧ contains (SHAPE district) (SHAPE parcel) = true
       ∧ parcel_extent r = extent (SHAPE parcel))
  ∧ dom (directional_land_use r) = {[ "North"; "East"; "South"; "West" ]}
  ∧ metadata_matcher df (planning_district r) (land_use_value r)
    = inr (size_ r, desc_ r)
  ∧ out = [].
Proof.
  rewrite resolution_cases.
  destruct (listMaps project) as [|map_obj maps] eqn:Hmaps; [done|].
  destruct (listLayers map_obj (Some parcel_layer_name)) as [|pl pls] eqn:Hpl;
    [done|].
  destruct (List.filter _ _) as [|dl dls] eqn:Hdl; [done|].
  cbv zeta. set (σ1 := with_queries _ σ). unfold outcome.
  destruct (rows_of σ1 pl "ParcelNumber") as [|first_row rows] eqn:Hrows;
    [done|].
  cbv zeta.
  destruct (label_or DistrictNotFound _) as [e1|district] eqn:Hd; [done|].
  destruct (listLayers map_obj (district_to_layer !! district))
    as [|lul luls]; [done|].
  destruct (label_or LandUseNotFound _) as [e2|land_use] eqn:Hl; [done|].
  destruct (metadata_matcher df district land_use) as [e3|matched] eqn:Hm;
    [done|].
  intros [= <- _ <-]. simpl.
  apply label_or_inr in Hd as (Hd & shape & Hfind).
  apply label_or_inr in Hl as (Hl & _).
  apply find_some in Hfind as [Hrow Hcontains]. simpl in Hcontains.
  apply rows_of_In in Hrow as (fd & Hfd & Hshape & Hname & _).
  assert (Hfirst : In first_row (rows_of σ1 pl "ParcelNumber"))
    by (rewrite Hrows; by left).
  apply rows_of_In in Hfirst as (fp & Hfp & Hpshape & _ & _).
  assert (Hdlin : In dl (List.filter isFeatureLayer
                    (listLayers map_obj (Some district_outline_name))))
    by (rewrite Hdl; by left).
  apply filter_In in Hdlin as [Hdlin Hfeat].
  split; [done|]. split; [done|]. split.
  { exists map_obj, pl, dl, fp, fd. simpl in Hshape, Hname.
    rewrite Hshape, Hpshape.
    split; [done|]. split; [by rewrite Hpl|]. split; [by rewrite Hdl|].
    by repeat split. }
  split; [|by destruct matched].
  unfold probes. rewrite !dom_insert_L, dom_empty_L. set_solver.
Qed.

(** *** Lines 111-148 *)

Lemma export_each_log (exports : list (string * (string * option Z)))
    (project : ArcGISProject) (e : Extent) (parcel_number output_folder : string)
    (σ σ' : state) (res : exn + unit) (out : list output) :
  export_each exports project e parcel_number output_folder σ = (res, σ', out) →
  Forall is_export out
  ∧ match res with
    | inl err => (err = IndexError ∨ ∃ cls, err = HostError cls)
                 ∧ (length out < length exports)%nat
    | inr _ => length out = length exports
    end.
Proof.
  revert σ σ' res out.
  induction exports as [|[layout_name [frame scale]] exports IH];
    intros σ σ' res out; simpl.
  { by intros [= <- _ <-]. }
  destruct (listLayouts project layout_name) as [|layout layouts].
  { intros [= <- _ <-]. split; [done|]. split; [by left|]. simpl. lia. }
  simpl index0. rewrite bind_ret.
  destruct (listElements layout "MAPFRAME_ELEMENT" frame) as [|map_frame frames].
  { intros [= <- _ <-]. split; [done|]. split; [by left|]. simpl. lia. }
  simpl index0. rewrite bind_ret.
  unfold setExtent. rewrite bind_modify.
  assert (Hscale : ∃ σ2, ∀ (k : unit → M unit) τ,
    τ = mkState (definitionQuery σ) (<[map_frame := e]> (camera_extent σ))
                (camera_scale σ) →
    bind match scale with
         | Some s => if s =? 0 then ret tt else set_scale map_frame s
         | None => ret tt
         end k τ = k tt σ2).
  { destruct scale as [s|]; [destruct (s =? 0)|]; eexists; intros k τ ->;
      unfold set_scale; first [apply bind_ret | apply bind_modify]. }
  destruct Hscale as (σ2 & Hscale). rewrite (Hscale _ _ eq_refl).
  unfold exportToJPEG.
  destruct (export_failure (layout_id layout) _) as [cls|].
  { rewrite bind_raise. intros [= <- _ <-]. split; [done|].
    split; [right; by exists cls|]. simpl. lia. }
  unfold emit, bind.
  destruct (export_each exports project e parcel_number output_folder σ2)
    as [[res2 σ3] out2] eqn:Hrest.
  intros [= <- _ <-]. apply IH in Hrest as [Hall Hlen].
  split; [constructor; [by eexists _, _|exact Hall]|].
  destruct res2 as [err|[]]; simpl; [|lia]. destruct Hlen. split; [done|lia].
Qed.

Lemma report_eq (project : ArcGISProject) (parcel_number output_folder : string)
    (r : resolved) (north east south west : option string) (σ : state) :
  directional_land_use r !! "North" = Some north →
  directional_land_use r !! "East" = Some east →
  directional_land_use r !! "South" = Some south →
  directional_land_use r !! "West" = Some west →
  report project parcel_number output_folder r σ =
  match export_each layout_exports project (parcel_extent r)
                    parcel_number output_folder σ with
  | (inl e, σ1, out1) => (inl e, σ1, out1)
  | (inr _, σ1, out1) =>
      match write_failure
              (path_join output_folder (parcel_number +:+ "_summary.txt"))
              (summary_text parcel_number r north east south west) with
      | Some cls => (inl (HostError cls), σ1, out1)
      | None =>
          (inr tt, σ1,
           out1 ++ [ WrittenFile
                       (path_join output_folder
                                  (parcel_number +:+ "_summary.txt"))
                       (summary_text parcel_number r north east south west);
                     Message "Parcel report complete." ])
      end
  end.
Proof.
  intros Hn He Hs Hw.
  set (summary_path := path_join output_folder (parcel_number +:+ "_summary.txt")).
  set (text := summary_text parcel_number r north east south west).
  unfold report, getitem, bind at 1.
  destruct (export_each _ _ _ _ _ σ) as [[[e|[]] σ1] out1]; [done|].
  unfold bind, write_file. rewrite Hn, He, Hs, Hw.
  unfold ret. cbv beta iota. fold summary_path. fold text.
  destruct (write_failure summary_path text);
    unfold raise, emit, AddMessage; simpl; [|done].
  by rewrite app_nil_r.
Qed.

Lemma outcome_directions (df : list ExcelRow) (map_obj : MapObj)
    (parcel_layer district_layer : Layer) (σ : state) (r : resolved) :
  outcome df map_obj parcel_layer district_layer σ = inr r →
  ∃ north east south west,
    directional_land_use r !! "North" = Some north
    ∧ directional_land_use r !! "East" = Some east
    ∧ directional_land_use r !! "South" = Some south
    ∧ directional_land_use r !! "West" = Some west.
Proof.
  unfold outcome.
  destruct (rows_of σ parcel_layer "ParcelNumber") as [|first_row rows]; [done|].
  cbv zeta.
  destruct (label_or DistrictNotFound _) as [e1|district]; [done|].
  destruct (listLayers map_obj _) as [|lul luls]; [done|].
  destruct (label_or LandUseNotFound _) as [e2|land_use]; [done|].
  destruct (metadata_matcher df district land_use) as [e3|matched]; [done|].
  intros [= <-]. simpl. unfold probes.
  eexists _, _, _, _. repeat split; by simplify_map_eq.
Qed.

Lemma resolution_inr (df : list ExcelRow) (project : ArcGISProject)
    (parcel_number : string) (σ σ1 : state) (r : resolved) (out : list output) :
  resolution df project parcel_number σ = (inr r, σ1, out) →
  out = []
  ∧ ∃ north east south west,
      directional_land_use r !! "North" = Some north
      ∧ directional_land_use r !! "East" = Some east
      ∧ directional_land_use r !! "South" = Some south
      ∧ directional_land_use r !! "West" = Some west.
Proof.
  rewrite resolution_cases.
  destruct (listMaps project) as [|map_obj maps]; [done|].
  destruct (listLayers map_obj (Some parcel_layer_name)) as [|pl pls]; [done|].
  destruct (List.filter _ _) as [|dl dls]; [done|].
  cbv zeta. intros [= Hout _ <-]. split; [done|].
  by eapply outcome_directions.
Qed.

Lemma resolution_inl (df : list ExcelRow) (project : ArcGISProject)
    (parcel_number : string) (σ σ1 : state) (e : exn) (out : list output) :
  resolution df project parcel_number σ = (inl e, σ1, out) →
  out = [] ∧ run_error e.
Proof.
  rewrite resolution_cases. unfold run_error.
  destruct (listMaps project) as [|map_obj maps]; [intros [= <- _ <-]; tauto|].
  destruct (listLayers map_obj (Some parcel_layer_name)) as [|pl pls];
    [intros [= <- _ <-]; tauto|].
  destruct (List.filter _ _) as [|dl dls]; [intros [= <- _ <-]; tauto|].
  cbv zeta. intros [= Hout _ <-]. split; [done|].
  by eapply outcome_inl.
Qed.

(** X1. Whatever the workbook, project, identifier, folder and host state,
    a run that ends with an exception ends with [IndexError],
    [StopIteration], the district-not-found or the land-use-not-found
    exception, the [AttributeError] of the [.str] accessor, or an exception
    raised inside [exportToJPEG] or while the summary file is written: the
    lookups of the four directions in Step 7 never raise [KeyError]. *)
Theorem run_raises_only (df : list ExcelRow) (project : ArcGISProject)
    (parcel_number output_folder : string) (σ σ' : state) (e : exn)
    (out : list output) :
  run df project parcel_number output_folder σ = (inl e, σ', out) →
  run_error e ∧ ∀ key, e ≠ KeyError key.
Proof.
  intros Hrun.
  assert (He : run_error e).
  { rewrite run_eq in Hrun.
    destruct (resolution df project parcel_number σ) as [[[e0|r] σ1] out1] eqn:Hres.
    - injection Hrun as <- _ _. by apply resolution_inl in Hres as [_ ?].
    - apply resolution_inr in Hres as (-> & n & ea & s & w & Hn & Hea & Hs & Hw).
      rewrite (report_eq _ _ _ _ n ea s w _ Hn Hea Hs Hw) in Hrun.
      destruct (export_each _ _ _ _ _ σ1) as [[[e1|[]] σ2] out2] eqn:Hexp.
      + injection Hrun as <- _ _.
        apply export_each_log in Hexp as [_ [[->|[cls ->]] _]].
        * by left.
        * do 5 right. by exists cls.
      + destruct (write_failure _ _) as [cls|]; [|done].
        injection Hrun as <- _ _. do 5 right. by exists cls. }
  split; [exact He|].
  intros key ->. by destruct He as [?|[?|[?|[?|[?|[? ?]]]]]].
Qed.


Lemma export_layouts_success (project : ArcGISProject) (e : Extent)
    (parcel_number output_folder : string) (σ σ' : state) (out : list output) :
  export_each layout_exports project e parcel_number output_folder σ
    = (inr tt, σ', out) →
  ∃ l1 l2 l3 f1 f2 f3,
    head (listLayouts project "Layout1") = Some l1
    ∧ head (listLayouts project "Layout2") = Some l2
    ∧ head (listLayouts project "Layout3") = Some l3
    ∧ head (listElements l1 "MAPFRAME_ELEMENT" "Figure 1") = Some f1
    ∧ head (listElements l2 "MAPFRAME_ELEMENT" "Figure 2") = Some f2
    ∧ head (listElements l3 "MAPFRAME_ELEMENT" "Figure 3") = Some f3
    ∧ σ' = with_cameras [(f1, e); (f2, e); (f3, e)] [(f1, 2640)] σ
    ∧ out = [ ExportedJPEG (layout_id l1)
                (path_join output_folder (parcel_number +:+ "_Layout1.jpg")) 300;
              ExportedJPEG (layout_id l2)
                (path_join output_folder (parcel_number +:+ "_Layout2.jpg")) 300;
              ExportedJPEG (layout_id l3)
                (path_join output_folder (parcel_number +:+ "_Layout3.jpg")) 300 ].
Proof.
  unfold layout_exports, export_each.
  destruct (listLayouts project "Layout1") as [|l1 ls1]; [done|].
  simpl index0. rewrite bind_ret.
  destruct (listElements l1 "MAPFRAME_ELEMENT" "Figure 1") as [|f1 fs1] eqn:F1;
    [done|].
  simpl index0. rewrite bind_ret.
  unfold setExtent at 1. rewrite bind_modify.
  simpl (2640 =? 0). cbv iota. unfold set_scale. rewrite bind_modify.
  unfold exportToJPEG at 1.
  destruct (export_failure (layout_id l1) _); [by rewrite bind_raise|].
  unfold emit at 1, bind at 1.
  destruct (listLayouts project "Layout2") as [|l2 ls2]; [done|].
  simpl index0. rewrite bind_ret.
  destruct (listElements l2 "MAPFRAME_ELEMENT" "Figure 2") as [|f2 fs2] eqn:F2;
    [done|].
  simpl index0. rewrite bind_ret.
  unfold setExtent at 1. rewrite bind_modify, bind_ret.
  unfold exportToJPEG at 1.
  destruct (export_failure (layout_id l2) _); [by rewrite bind_raise|].
  unfold emit at 1, bind at 1.
  destruct (listLayouts project "Layout3") as [|l3 ls3]; [done|].
  simpl index0. rewrite bind_ret.
  destruct (listElements l3 "MAPFRAME_ELEMENT" "Figure 3") as [|f3 fs3] eqn:F3;
    [done|].
  simpl index0. rewrite bind_ret.
  unfold setExtent at 1. rewrite bind_modify, bind_ret.
  unfold exportToJPEG.
  destruct (export_failure (layout_id l3) _); [by rewrite bind_raise|].
  unfold emit, bind, ret. simpl.
  intros [= <- <-]. exists l1, l2, l3, f1, f2, f3.
  rewrite F1, F2, F3. repeat split; reflexivity.
Qed.

(** X2. A run that ends normally has written exactly five items, in this
    order: the JPEG exports of Layout1, Layout2 and Layout3 (each of the first
    layout found under that name, at 300 dpi, to
    [<folder>/<identifier>_<layout>.jpg]), the summary file
    [<folder>/<identifier>_summary.txt] whose text is the summary template
    filled with the resolved values, and the completion message. *)
Theorem successful_run_outputs (df : list ExcelRow) (project : ArcGISProject)
    (parcel_number output_folder : string) (σ σ' : state) (out : list output) :
  run df project parcel_number output_folder σ = (inr tt, σ', out) →
  ∃ r l1 l2 l3 north east south west,
    (resolution df project parcel_number σ).1.1 = inr r
    ∧ head (listLayouts project "Layout1") = Some l1
    ∧ head (listLayouts project "Layout2") = Some l2
    ∧ head (listLayouts project "Layout3") = Some l3
    ∧ directional_land_use r !! "North" = Some north
    ∧ directional_land_use r !! "East" = Some east
    ∧ directional_land_use r !! "South" = Some south
    ∧ directional_land_use r !! "West" = Some west
    ∧ out = [ ExportedJPEG (layout_id l1)
                (path_join output_folder (parcel_number +:+ "_Layout1.jpg")) 300;
              ExportedJPEG (layout_id l2)
                (path_join output_folder (parcel_number +:+ "_Layout2.jpg")) 300;
              ExportedJPEG (layout_id l3)
                (path_join output_folder (parcel_number +:+ "_Layout3.jpg")) 300;
              WrittenFile
                (path_join output_folder (parcel_number +:+ "_summary.txt"))
                (summary_text parcel_number r north east south west);
              Message "Parcel report complete." ].
Proof.
  intros Hrun. rewrite run_eq in Hrun.
  destruct (resolution df project parcel_number σ) as [[[e0|r] σ1] out1] eqn:Hres;
    [done|].
  apply resolution_inr in Hres as (-> & n & ea & s & w & Hn & Hea & Hs & Hw).
  rewrite (report_eq _ _ _ _ n ea s w _ Hn Hea Hs Hw) in Hrun.
  destruct (export_each _ _ _ _ _ σ1) as [[[e1|[]] σ2] out2] eqn:Hexp; [done|].
  destruct (write_failure _ _); [done|].
  injection Hrun as _ <-.
  apply export_layouts_success in Hexp
    as (l1 & l2 & l3 & f1 & f2 & f3 & H1 & H2 & H3 & _ & _ & _ & _ & ->).
  by exists r, l1, l2, l3, n, ea, s, w.
Qed.

(** X5. A run that ends normally leaves the host with: the parcel layer's
    definition query assigned; the camera of the map frame of each of the
    three layouts set to the parcel's extent; the scale of Layout1's frame
    set to 2640; and no other camera scale changed (the frames of Layout2
    and Layout3 keep the scale they had, unless they are Layout1's frame). *)
Theorem successful_run_state (df : list ExcelRow) (project : ArcGISProject)
    (parcel_number output_folder : string) (σ σ' : state) (out : list output) :
  run df project parcel_number output_folder σ = (inr tt, σ', out) →
  ∃ r σ1 l1 l2 l3 f1 f2 f3,
    resolution df project parcel_number σ = (inr r, σ1, [])
    ∧ head (listLayouts project "Layout1") = Some l1
    ∧ head (listLayouts project "Layout2") = Some l2
    ∧ head (listLayouts project "Layout3") = Some l3
    ∧ head (listElements l1 "MAPFRAME_ELEMENT" "Figure 1") = Some f1
    ∧ head (listElements l2 "MAPFRAME_ELEMENT" "Figure 2") = Some f2
    ∧ head (listElements l3 "MAPFRAME_ELEMENT" "Figure 3") = Some f3
    ∧ definitionQuery σ' = definitionQuery σ1
    ∧ camera_extent σ' !! f1 = Some (parcel_extent r)
    ∧ camera_extent σ' !! f2 = Some (parcel_extent r)
    ∧ camera_extent σ' !! f3 = Some (parcel_extent r)
    ∧ (∀ f, f ≠ f1 → f ≠ f2 → f ≠ f3 →
            camera_extent σ' !! f = camera_extent σ !! f)
    ∧ camera_scale σ' = <[f1 := 2640]> (camera_scale σ).
Proof.
  intros Hrun. rewrite run_eq in Hrun.
  destruct (resolution df project parcel_number σ) as [[[e0|r] σ1] out1] eqn:Hres;
    [done|].
  pose proof Hres as Hres'.
  apply resolution_inr in Hres' as (-> & n & ea & s & w & Hn & Hea & Hs & Hw).
  rewrite (report_eq _ _ _ _ n ea s w _ Hn Hea Hs Hw) in Hrun.
  destruct (export_each _ _ _ _ _ σ1) as [[[e1|[]] σ2] out2] eqn:Hexp; [done|].
  destruct (write_failure _ _); [done|].
  injection Hrun as <- _.
  apply export_layouts_success in Hexp
    as (l1 & l2 & l3 & f1 & f2 & f3 & H1 & H2 & H3 & F1 & F2 & F3 & -> & _).
  assert (Hcam : camera_extent σ1 = camera_extent σ
                 ∧ camera_scale σ1 = camera_scale σ).
  { destruct (resolution_footprint df project parcel_number σ)
      as (r0 & qs & Hr0 & _).
    rewrite Hres in Hr0. by injection Hr0 as _ ->. }
  destruct Hcam as [Hce Hcs].
  exists r, σ1, l1, l2, l3, f1, f2, f3. simpl. rewrite Hce, Hcs.
  repeat (split; [done|]).
  split.
  { destruct (decide (f1 = f3)) as [->|?]; [by simplify_map_eq|].
    destruct (decide (f1 = f2)) as [->|?]; by simplify_map_eq. }
  split; [destruct (decide (f2 = f3)) as [->|?]; by simplify_map_eq|].
  split; [by simplify_map_eq|].
  split; [intros f ? ? ?; by simplify_map_eq|done].
Qed.

(** *** Failures before and in Step 1 *)

(** X6. When the project has no map, or its first map has no layer under
    the parcel layer's name, or no feature layer under the district
    outline's name, the run ends with [IndexError] with the host exactly as
    it was (no definition query has been assigned) and nothing written. *)
Theorem startup_failure_untouched (df : list ExcelRow) (project : ArcGISProject)
    (parcel_number output_folder : string) (σ : state) :
  (listMaps project = []
   ∨ ∃ map_obj maps,
       listMaps project = map_obj :: maps
       ∧ (listLayers map_obj (Some parcel_layer_name) = []
          ∨ List.filter isFeatureLayer
              (listLayers map_obj (Some district_outline_name)) = [])) →
  run df project parcel_number output_folder σ = (inl IndexError, σ, []).
Proof.
  intros Hfail. rewrite run_eq, resolution_cases.
  destruct Hfail as [->|(map_obj & maps & -> & [Hpl|Hdl])]; [done|..].
  - by rewrite Hpl.
  - rewrite Hdl. by destruct (listLayers map_obj (Some parcel_layer_name)).
Qed.

Lemma rows_of_none (σ : state) (lyr : Layer) (field : string) :
  Forall (λ f, sql_select (query_of σ lyr) (attr f) = false) (features lyr) →
  rows_of σ lyr field = [].
Proof.
  unfold rows_of. intros Hall.
  induction Hall as [|f fs Hf Hfs IH]; simpl; [done|].
  by rewrite Hf.
Qed.

(** X7. When the three layers are found and no feature of the parcel layer
    passes the query [ParcelNumber = '<identifier>'], the run ends with
    [StopIteration] whatever the districts, the land-use layers, the
    workbook and the layouts are; the query stays assigned on the parcel
    layer and nothing is written. *)
Theorem unmatched_parcel_StopIteration (df : list ExcelRow)
    (project : ArcGISProject) (parcel_number output_folder : string)
    (σ : state) (map_obj : MapObj) (maps : list MapObj)
    (parcel_layer district_layer : Layer) (pls dls : list Layer) :
  listMaps project = map_obj :: maps →
  listLayers map_obj (Some parcel_layer_name) = parcel_layer :: pls →
  List.filter isFeatureLayer (listLayers map_obj (Some district_outline_name))
    = district_layer :: dls →
  Forall (λ f, sql_select ("ParcelNumber = '" +:+ parcel_number +:+ "'")
                          (attr f) = false)
         (features parcel_layer) →
  run df project parcel_number output_folder σ
  = (inl StopIteration,
     with_queries (parcel_query parcel_layer parcel_number) σ, []).
Proof.
  intros Hmaps Hpl Hdl Hnone.
  rewrite run_eq, resolution_cases, Hmaps, Hpl, Hdl. cbv zeta.
  unfold outcome. rewrite rows_of_none; [done|].
  unfold query_of, with_queries, parcel_query. simpl.
  by rewrite lookup_insert_eq.
Qed.

(** X8. After the Parcel Locator has run, a cursor opened on any layer
    object that is the parcel layer yields only the features that pass the
    query [ParcelNumber = '<identifier>'], whatever query the layer had
    before; a cursor on any other layer yields what it yielded before. *)
Theorem locator_filters_parcel_layer_only (parcel_layer : Layer)
    (parcel_number : string) (σ σ' : state) (r : exn + Geometry * Extent)
    (out : list output) (lyr : Layer) (field : string) :
  parcel_locator parcel_layer parcel_number σ = (r, σ', out) →
  rows_of σ' lyr field =
  if decide (layer_id lyr = layer_id parcel_layer)
  then map (λ f, (SHAPE f, attr f field))
           (List.filter
              (λ f, sql_select ("ParcelNumber = '" +:+ parcel_number +:+ "'")
                               (attr f))
              (features lyr))
  else rows_of σ lyr field.
Proof.
  rewrite parcel_locator_eq. cbv zeta. intros [= _ <- _].
  unfold rows_of, query_of, with_queries. simpl.
  destruct (decide (layer_id lyr = layer_id parcel_layer)) as [->|Hne].
  - by rewrite lookup_insert_eq.
  - by rewrite lookup_insert_ne.
Qed.

(** *** The mapping *)

Lemma district_to_layer_elem (district name : string) :
  district_to_layer !! district = Some name →
  name = district ∧ district ≠ district_outline_name
  ∧ district ≠ parcel_layer_name.
Proof.
  intros Hlookup. apply elem_of_list_to_map_2 in Hlookup.
  repeat (apply elem_of_cons in Hlookup as [[= -> ->]|Hlookup]; [done|]).
  by apply elem_of_nil in Hlookup.
Qed.

(** X9. The mapping is the identity on its twelve keys: for every district,
    the layer name Step 3 looks up is the district's own name when the
    district is a key, and [None] otherwise; it is never the name of the
    parcel layer or of the district outline. *)
Theorem district_to_layer_identity (district : string) :
  base.size district_to_layer = 12%nat
  ∧ (district_to_layer !! district = Some district
     ∨ district_to_layer !! district = None)
  ∧ district_to_layer !! district ≠ Some parcel_layer_name
  ∧ district_to_layer !! district ≠ Some district_outline_name.
Proof.
  split; [by vm_compute|].
  destruct (district_to_layer !! district) as [name|] eqn:Hlookup.
  - apply district_to_layer_elem in Hlookup as (-> & Hd & Hp).
    split; [by left|]. split; intros [= ->]; done.
  - split; [by right|]. done.
Qed.

(** *** Step 5 *)

(** X10. A pair that is spelled as the two text keys of some row of the
    workbook is always matched: Step 5 does not raise, and the result is the
    (SIZE, DESC) of a row of the workbook that the mask selects, never the
    fallback for a missing row. *)
Theorem matcher_finds_own_keys (df : list ExcelRow) (r : ExcelRow)
    (district land_use : string) :
  In r df →
  DISTRICT_PLAN r = CText district →
  TYPE r = CText land_use →
  ∃ r', In r' df ∧ row_mask district land_use r' = true
        ∧ metadata_matcher df district land_use = inr (SIZE r', DESC r').
Proof.
  intros Hin Hd Ht. rewrite metadata_matcher_find.
  2:{ apply (has_str_text _ (DISTRICT_PLAN r)); [by apply in_map|by rewrite Hd]. }
  2:{ apply (has_str_text _ (TYPE r)); [by apply in_map|by rewrite Ht]. }
  assert (Hmask : row_mask district land_use r = true).
  { unfold row_mask, series_eq. rewrite Hd, Ht. simpl.
    by rewrite !String.eqb_refl. }
  destruct (List.find (row_mask district land_use) df) as [r'|] eqn:Hfind.
  - apply find_some in Hfind as [Hin' Hmask']. by exists r'.
  - eapply find_none in Hfind; [|exact Hin]. congruence.
Qed.

Lemma has_str_text_keys (df : list ExcelRow) :
  has_str (map DISTRICT_PLAN (List.filter text_keys df)) = true
  ∧ has_str (map TYPE (List.filter text_keys df)) = true.
Proof.
  destruct (List.filter text_keys df) as [|r rs] eqn:Hfilter; [done|].
  assert (Hr : In r (List.filter text_keys df)) by (rewrite Hfilter; by left).
  apply filter_In in Hr as [_ Hkeys]. unfold text_keys in Hkeys.
  split.
  - apply (has_str_text _ (DISTRICT_PLAN r)); [by left|].
    by destruct (DISTRICT_PLAN r).
  - apply (has_str_text _ (TYPE r)); [by left|].
    by destruct (DISTRICT_PLAN r), (TYPE r).
Qed.

(** X11. When Step 5 does not raise, rows whose district cell or type cell
    is not text (a number, an empty cell) take no part in the match:
    dropping them from the workbook gives the same result, again without
    raising. *)
Theorem matcher_ignores_non_text_rows (df : list ExcelRow)
    (district land_use : string) (res : cell * cell) :
  metadata_matcher df district land_use = inr res →
  metadata_matcher (List.filter text_keys df) district land_use = inr res.
Proof.
  intros Hres.
  destruct (has_str_text_keys df) as [Hd Ht].
  rewrite (metadata_matcher_find _ _ _ Hd Ht).
  unfold metadata_matcher in Hres.
  destruct (has_str (map DISTRICT_PLAN df)); [|done].
  destruct (has_str (map TYPE df)); [|done].
  injection Hres as <-. rewrite size_desc_find. f_equal. clear Hd Ht.
  induction df as [|row df IH]; simpl; [done|].
  destruct (text_keys row) eqn:Hkeys; simpl.
  - by destruct (row_mask district land_use row).
  - assert (Hmask : row_mask district land_use row = false).
    { unfold row_mask, series_eq, str_strip_lower. unfold text_keys in Hkeys.
      destruct (DISTRICT_PLAN row), (TYPE row); try done.
      all: apply andb_false_r. }
    by rewrite Hmask.
Qed.

(** *** Step 4 inside one zone *)

(** X12. When the first zone the land-use layer yields contains all four
    offset points (a zone much larger than the offsets), the four directions
    all get that zone's label, whatever the later zones are. *)
Theorem prober_inside_first_zone (land_use_layer : Layer)
    (parcel_geom shape : Geometry) (label : option string)
    (rest : list (Geometry * option string)) (σ : state) :
  rows_of σ land_use_layer "LUC_TEXT" = (shape, label) :: rest →
  (∀ dir dx dy, In (dir, (dx, dy)) directions →
                contains shape (probe_point parcel_geom dx dy) = true) →
  ∃ m, directional_prober land_use_layer parcel_geom σ = (inr m, σ, [])
       ∧ ∀ dir dx dy, In (dir, (dx, dy)) directions → m !! dir = Some label.
Proof.
  intros Hrows Hin. exists (probes σ land_use_layer parcel_geom).
  split; [apply directional_prober_eq|].
  assert (Hzone : ∀ dir dx dy, In (dir, (dx, dy)) directions →
            zone_at σ land_use_layer (probe_point parcel_geom dx dy) = label).
  { intros dir dx dy Hdir. unfold zone_at. rewrite Hrows. simpl.
    by rewrite (Hin dir dx dy Hdir). }
  intros dir dx dy Hdir. pose proof (Hzone dir dx dy Hdir) as Hz.
  unfold directions in Hdir. simpl in Hdir. unfold probes.
  destruct Hdir as [[= <- <- <-]|[[= <- <- <-]|[[= <- <- <-]|[[= <- <- <-]|[]]]]];
    rewrite Hz; by simplify_map_eq.
Qed.

(** *** Which layers and which state the result depends on *)

Lemma outcome_query (df : list ExcelRow) (map_obj : MapObj)
    (parcel_layer district_layer : Layer) (σ σ' : state) :
  definitionQuery σ = definitionQuery σ' →
  outcome df map_obj parcel_layer district_layer σ
  = outcome df map_obj parcel_layer district_layer σ'.
Proof. destruct σ, σ'. simpl. by intros ->. Qed.

Lemma outcome_layers (df : list ExcelRow) (map1 map2 : MapObj)
    (parcel_layer district_layer : Layer) (σ : state) :
  (∀ wildcard, wildcard ≠ Some district_outline_name →
               head (listLayers map1 wildcard) = head (listLayers map2 wildcard)) →
  outcome df map1 parcel_layer district_layer σ
  = outcome df map2 parcel_layer district_layer σ.
Proof.
  intros Hsame. unfold outcome.
  destruct (rows_of σ parcel_layer "ParcelNumber") as [|first_row rows]; [done|].
  cbv zeta.
  destruct (label_or DistrictNotFound _) as [e|district]; [done|].
  assert (Hhead : head (listLayers map1 (district_to_layer !! district))
                  = head (listLayers map2 (district_to_layer !! district))).
  { apply Hsame. intros Hname.
    by apply district_to_layer_elem in Hname as (<- & ? & _). }
  destruct (listLayers map1 (district_to_layer !! district)) as [|lu1 ?],
           (listLayers map2 (district_to_layer !! district)) as [|lu2 ?];
    try done.
  simpl in Hhead. by injection Hhead as ->.
Qed.

(** X13. Of each layer lookup only the first layer found counts, and for
    the district outline only the feature layers found count: two projects
    whose first maps give the same first layer under every other name (and
    under no name), and the same first feature layer under the district
    outline's name, resolve every parcel alike, whatever group layers or
    other non-feature layers carry the district outline's name. *)
Theorem district_lookup_feature_layers_only (df : list ExcelRow)
    (project1 project2 : ArcGISProject) (map1 map2 : MapObj)
    (parcel_number : string) (σ : state) :
  head (listMaps project1) = Some map1 →
  head (listMaps project2) = Some map2 →
  (∀ wildcard, wildcard ≠ Some district_outline_name →
               head (listLayers map1 wildcard) = head (listLayers map2 wildcard)) →
  head (List.filter isFeatureLayer (listLayers map1 (Some district_outline_name)))
  = head (List.filter isFeatureLayer
            (listLayers map2 (Some district_outline_name))) →
  resolution df project1 parcel_number σ = resolution df project2 parcel_number σ.
Proof.
  intros Hm1 Hm2 Hsame Hfeature. rewrite !resolution_cases.
  destruct (listMaps project1) as [|m1 ms1]; [done|].
  destruct (listMaps project2) as [|m2 ms2]; [done|].
  simpl in Hm1, Hm2. injection Hm1 as ->. injection Hm2 as ->.
  assert (Hpl : head (listLayers map1 (Some parcel_layer_name))
                = head (listLayers map2 (Some parcel_layer_name)))
    by (by apply Hsame).
  destruct (listLayers map1 (Some parcel_layer_name)) as [|pl1 ?],
           (listLayers map2 (Some parcel_layer_name)) as [|pl2 ?]; try done.
  simpl in Hpl. injection Hpl as ->.
  destruct (List.filter isFeatureLayer
              (listLayers map1 (Some district_outline_name))) as [|dl1 ?],
           (List.filter isFeatureLayer
              (listLayers map2 (Some district_outline_name))) as [|dl2 ?];
    try done.
  simpl in Hfeature. injection Hfeature as ->.
  cbv zeta. by rewrite (outcome_layers df map1 map2).
Qed.

(** X14. The result and the output of a run do not depend on the cameras
    or on the query the parcel layer had before: two host states that agree
    on the definition queries of all other layers give the same result and
    the same output. *)
Theorem run_ignores_stale_state (df : list ExcelRow) (project : ArcGISProject)
    (parcel_number output_folder : string) (σ1 σ2 : state)
    (map_obj : MapObj) (maps : list MapObj)
    (parcel_layer : Layer) (pls : list Layer) :
  listMaps project = map_obj :: maps →
  listLayers map_obj (Some parcel_layer_name) = parcel_layer :: pls →
  (∀ id, id ≠ layer_id parcel_layer →
         definitionQuery σ1 !! id = definitionQuery σ2 !! id) →
  (run df project parcel_number output_folder σ1).1.1
  = (run df project parcel_number output_folder σ2).1.1
  ∧ (run df project parcel_number output_folder σ1).2
    = (run df project parcel_number output_folder σ2).2.
Proof.
  intros Hmaps Hpl Hagree.
  rewrite !run_eq, !resolution_cases, Hmaps, Hpl.
  destruct (List.filter _ _) as [|dl dls]; [done|].
  cbv zeta.
  rewrite (outcome_query df map_obj parcel_layer dl
             (with_queries (parcel_query parcel_layer parcel_number) σ1)
             (with_queries (parcel_query parcel_layer parcel_number) σ2)).
  2:{ unfold with_queries, parcel_query. simpl. apply map_eq. intros id.
      destruct (decide (layer_id parcel_layer = id)) as [<-|Hne].
      - by rewrite !lookup_insert_eq.
      - rewrite !lookup_insert_ne by done. by apply Hagree. }
  destruct (outcome df map_obj parcel_layer dl _) as [e|r]; [done|].
  destruct (camera_only_report project parcel_number output_folder r)
    as (res & es & ss & out & Hrep).
  by rewrite !Hrep.
Qed.

(** *** When a run succeeds *)

(** X15. When the resolution succeeds, each of the three layouts and its
    map frame are found, and neither the three exports nor the writing of
    the summary file raise, the run ends normally: a missing layout or map
    frame, a failed export and a failed write are the only ways the report
    can fail once Step 5 is done. *)
Theorem run_succeeds (df : list ExcelRow) (project : ArcGISProject)
    (parcel_number output_folder : string) (σ σ1 : state) (r : resolved)
    (l1 l2 l3 : Layout) (f1 f2 f3 : nat) (north east south west : option string) :
  resolution df project parcel_number σ = (inr r, σ1, []) →
  head (listLayouts project "Layout1") = Some l1 →
  head (listLayouts project "Layout2") = Some l2 →
  head (listLayouts project "Layout3") = Some l3 →
  head (listElements l1 "MAPFRAME_ELEMENT" "Figure 1") = Some f1 →
  head (listElements l2 "MAPFRAME_ELEMENT" "Figure 2") = Some f2 →
  head (listElements l3 "MAPFRAME_ELEMENT" "Figure 3") = Some f3 →
  export_failure (layout_id l1)
    (path_join output_folder (parcel_number +:+ "_Layout1.jpg")) = None →
  export_failure (layout_id l2)
    (path_join output_folder (parcel_number +:+ "_Layout2.jpg")) = None →
  export_failure (layout_id l3)
    (path_join output_folder (parcel_number +:+ "_Layout3.jpg")) = None →
  directional_land_use r !! "North" = Some north →
  directional_land_use r !! "East" = Some east →
  directional_land_use r !! "South" = Some south →
  directional_land_use r !! "West" = Some west →
  write_failure (path_join output_folder (parcel_number +:+ "_summary.txt"))
                (summary_text parcel_number r north east south west) = None →
  ∃ out,
    run df project parcel_number output_folder σ
    = (inr tt,
       with_cameras [(f1, parcel_extent r); (f2, parcel_extent r);
                     (f3, parcel_extent r)] [(f1, 2640)] σ1,
       out)
    ∧ length out = 5%nat.
Proof.
  intros Hres H1 H2 H3 F1 F2 F3 X1 X2 X3 Hn Hea Hs Hw Hwrite.
  rewrite run_eq, Hres.
  rewrite (report_eq _ _ _ _ north east south west _ Hn Hea Hs Hw), Hwrite.
  assert (Hexp : ∃ out1,
    export_each layout_exports project (parcel_extent r)
                parcel_number output_folder σ1
    = (inr tt,
       with_cameras [(f1, parcel_extent r); (f2, parcel_extent r);
                     (f3, parcel_extent r)] [(f1, 2640)] σ1, out1)
    ∧ length out1 = 3%nat).
  { destruct (listLayouts project "Layout1") as [|? ls1] eqn:L1; [done|].
    destruct (listLayouts project "Layout2") as [|? ls2] eqn:L2; [done|].
    destruct (listLayouts project "Layout3") as [|? ls3] eqn:L3; [done|].
    simpl in H1, H2, H3.
    injection H1 as ->. injection H2 as ->. injection H3 as ->.
    destruct (listElements l1 "MAPFRAME_ELEMENT" "Figure 1") as [|? fs1] eqn:E1;
      [done|].
    destruct (listElements l2 "MAPFRAME_ELEMENT" "Figure 2") as [|? fs2] eqn:E2;
      [done|].
    destruct (listElements l3 "MAPFRAME_ELEMENT" "Figure 3") as [|? fs3] eqn:E3;
      [done|].
    simpl in F1, F2, F3.
    injection F1 as ->. injection F2 as ->. injection F3 as ->.
    unfold layout_exports, export_each.
    rewrite L1. simpl index0. rewrite bind_ret, E1. simpl index0.
    rewrite bind_ret. unfold setExtent at 1. rewrite bind_modify.
    simpl (2640 =? 0). cbv iota. unfold set_scale. rewrite bind_modify.
    unfold exportToJPEG at 1.
    change (parcel_number +:+ "_" +:+ "Layout1" +:+ ".jpg")
      with (parcel_number +:+ "_Layout1.jpg").
    rewrite X1. unfold emit at 1, bind at 1.
    rewrite L2. simpl index0. rewrite bind_ret, E2. simpl index0.
    rewrite bind_ret. unfold setExtent at 1. rewrite bind_modify, bind_ret.
    unfold exportToJPEG at 1.
    change (parcel_number +:+ "_" +:+ "Layout2" +:+ ".jpg")
      with (parcel_number +:+ "_Layout2.jpg").
    rewrite X2. unfold emit at 1, bind at 1.
    rewrite L3. simpl index0. rewrite bind_ret, E3. simpl index0.
    rewrite bind_ret. unfold setExtent at 1. rewrite bind_modify, bind_ret.
    unfold exportToJPEG.
    change (parcel_number +:+ "_" +:+ "Layout3" +:+ ".jpg")
      with (parcel_number +:+ "_Layout3.jpg").
    rewrite X3. unfold emit, bind, ret. simpl.
    eexists. split; [reflexivity|done]. }
  destruct Hexp as (out1 & -> & Hlen).
  eexists. split; [reflexivity|].
  simpl. by rewrite length_app, Hlen.
Qed.

End Properties.

(** ** Runs on the grid host *)

Section GridRuns.

Import Grid.

(** C2, witness: parcel P1 in "Florida Mesa" resolves to the first zone that
    contains it. *)
Lemma land_use_resolver_first_zone_witness :
  listLayers county_map (district_to_layer !! "Florida Mesa") = [florida_mesa]
  ∧ @land_use_resolver grid_host county_map "Florida Mesa" P1 (queried "P1")
    = (inr (florida_mesa, "Agricultural"), queried "P1", []).
Proof.
  split; [reflexivity|].
  rewrite (@land_use_resolver_first_zone grid_host county_map "Florida Mesa"
             P1 (queried "P1") florida_mesa [] eq_refl).
  reflexivity.
Defined.

(** C2, counterexample: the first zone that contains P1 has the empty label;
    the resolver raises instead of returning that label. *)
Lemma land_use_claim_fails :
  ¬ @land_use_claim grid_host unlabelled_map "Florida Mesa" P1 (queried "P1").
Proof.
  intros Hclaim. specialize (Hclaim unlabelled_zones [] eq_refl).
  assert (Hraised :
    (@land_use_resolver grid_host unlabelled_map "Florida Mesa" P1
       (queried "P1")).1.1 = inl LandUseNotFound)
    by reflexivity.
  destruct (List.find _ _) as [row|] eqn:Hfind in Hclaim.
  - destruct Hclaim as (label & _ & Hrun). rewrite Hrun in Hraised.
    discriminate Hraised.
  - vm_compute in Hfind. discriminate Hfind.
Qed.

(** C3, counterexample: the one district that contains P1 has the empty
    name; the resolver raises instead of returning that name. *)
Lemma district_claim_fails :
  ¬ @district_claim grid_host unnamed_districts P1 (queried "P1").
Proof.
  intros Hclaim. unfold district_claim in Hclaim.
  assert (Hraised :
    (@district_resolver grid_host unnamed_districts P1 (queried "P1")).1.1
    = inl DistrictNotFound)
    by reflexivity.
  destruct (List.find _ _) as [row|] eqn:Hfind in Hclaim.
  - destruct Hclaim as (name & _ & Hrun). rewrite Hrun in Hraised.
    discriminate Hraised.
  - vm_compute in Hfind. discriminate Hfind.
Qed.

(** C4, witness: (" animas valley ", "RESIDENTIAL ") is matched as
    ("Animas Valley", "Residential") is, in a workbook of text keys. *)
Lemma metadata_matcher_first_row_witness :
  @metadata_matcher grid_host workbook " animas valley " "RESIDENTIAL "
  = @metadata_matcher grid_host workbook "Animas Valley" "Residential"
  ∧ @metadata_matcher grid_host workbook "Animas Valley" "Residential"
    = inr (CText "3 acres", CText "Valley homes").
Proof.
  pose proof (@metadata_matcher_first_row grid_host workbook
                "Animas Valley" "Residential")
    as (Hfirst & _ & _ & _ & _ & Hsame).
  split.
  - exact (Hsame " animas valley " "RESIDENTIAL " eq_refl eq_refl).
  - exact (Hfirst eq_refl eq_refl).
Defined.

(** C4, counterexample: the TYPE column of the workbook holds a number and
    no text; the [.str] accessor raises, where no row matching would have to
    give the fallback pair. *)
Lemma matcher_claim_fails :
  ¬ @matcher_claim grid_host numeric_workbook "Florida Mesa" "Agricultural".
Proof. unfold matcher_claim. intros Hclaim. discriminate Hclaim. Qed.

(** C5: no parcel is numbered P3; the run ends with [StopIteration], raised
    by [next(cursor)]. *)
Lemma unknown_parcel_StopIteration :
  @run grid_host workbook county "P3" "out" fresh
  = (inl StopIteration, queried "P3", []).
Proof. reflexivity. Qed.

(** C6: the district of P1 is "Bayfield", which the mapping does not have;
    the run raises nothing, queries the first layer [listLayers(None)]
    gives, and writes a report with that layer's land use. *)
Lemma unmapped_district_reports :
  district_to_layer !! "Bayfield" = None
  ∧ (@run grid_host workbook bayfield "P1" "out" fresh).1.1 = inr tt
  ∧ (@resolution grid_host workbook bayfield "P1" fresh).1.1
    = inr (@Build_resolved grid_host P1 "Bayfield" "Agricultural"
             {[ "North" := Some "Residential"; "East" := Some "Residential";
                "South" := Some "Residential"; "West" := Some "Residential" ]}
             (CText "Not found") (CText "Not found")).
Proof. repeat split; reflexivity. Qed.

(** C7, witness: parcel P2 lies in no district. *)
Lemma fatal_error_no_output_witness :
  @run grid_host workbook county "P2" "out" fresh
    = (inl DistrictNotFound, queried "P2", [])
  ∧ ([] = @nil (@output) ∧ camera_extent (queried "P2") = camera_extent fresh
     ∧ camera_scale (queried "P2") = camera_scale fresh).
Proof.
  assert (Hrun : @run grid_host workbook county "P2" "out" fresh
                 = (inl DistrictNotFound, queried "P2", []))
    by reflexivity.
  split; [exact Hrun|].
  exact (@fatal_error_no_output grid_host workbook county "P2" "out" fresh
           (queried "P2") DistrictNotFound [] Hrun (or_intror (or_introl eq_refl))).
Defined.

(** C8, counterexample: locating P1 on a fresh host leaves a definition query
    on the parcel layer. *)
Lemma locator_frame_claim_fails :
  ¬ @locator_frame_claim grid_host parcels "P1" fresh.
Proof.
  unfold locator_frame_claim. intros Hsame.
  apply (f_equal (λ σ, definitionQuery σ !! 1%nat)) in Hsame.
  vm_compute in Hsame. discriminate Hsame.
Qed.

(** C10, witness: the map has no layer named "Florida Mesa". *)
Lemma missing_layer_IndexError_witness :
  listMaps bare_county = [bare_map]
  ∧ missing_layer bare_map "P1" fresh
  ∧ ((∃ σ', @run grid_host workbook bare_county "P1" "out" fresh
            = (inl IndexError, σ', []))
     ∧ IndexError ≠ DistrictNotFound ∧ IndexError ≠ LandUseNotFound).
Proof.
  assert (Hmissing : @missing_layer grid_host bare_map "P1" fresh).
  { right. right.
    exists parcels, [], districts, [], (P1, P1), (queried "P1"), "Florida Mesa".
    repeat split; reflexivity. }
  split; [reflexivity|]. split; [exact Hmissing|].
  exact (@missing_layer_IndexError grid_host workbook bare_county "P1" "out"
           fresh bare_map [] eq_refl Hmissing).
Defined.

(** X1, witness: the run on P2 ends with the district-not-found
    exception. *)
Lemma run_raises_only_witness :
  @run grid_host workbook county "P2" "out" fresh
    = (inl DistrictNotFound, queried "P2", [])
  ∧ run_error DistrictNotFound ∧ ∀ key, DistrictNotFound ≠ KeyError key.
Proof.
  assert (Hrun : @run grid_host workbook county "P2" "out" fresh
                 = (inl DistrictNotFound, queried "P2", []))
    by reflexivity.
  split; [exact Hrun|].
  exact (@run_raises_only grid_host workbook county "P2" "out" fresh
           (queried "P2") DistrictNotFound [] Hrun).
Defined.

Lemma county_run_P1 :
  @run grid_host workbook county "P1" "out" fresh = (inr tt, reported, P1_outputs).
Proof. reflexivity. Qed.

Lemma county_resolution_P1 :
  @resolution grid_host workbook county "P1" fresh
  = (inr P1_resolved, queried "P1", []).
Proof. reflexivity. Qed.

(** X2, witness: the complete run on P1. *)
Lemma successful_run_outputs_witness :
  @run grid_host workbook county "P1" "out" fresh = (inr tt, reported, P1_outputs)
  ∧ ∃ r l1 l2 l3 north east south west,
      (@resolution grid_host workbook county "P1" fresh).1.1 = inr r
      ∧ head (listLayouts county "Layout1") = Some l1
      ∧ head (listLayouts county "Layout2") = Some l2
      ∧ head (listLayouts county "Layout3") = Some l3
      ∧ directional_land_use r !! "North" = Some north
      ∧ directional_land_use r !! "East" = Some east
      ∧ directional_land_use r !! "South" = Some south
      ∧ directional_land_use r !! "West" = Some west
      ∧ P1_outputs
        = [ ExportedJPEG (layout_id l1) (@path_join grid_host "out" "P1_Layout1.jpg") 300;
            ExportedJPEG (layout_id l2) (@path_join grid_host "out" "P1_Layout2.jpg") 300;
            ExportedJPEG (layout_id l3) (@path_join grid_host "out" "P1_Layout3.jpg") 300;
            WrittenFile (@path_join grid_host "out" "P1_summary.txt")
              (summary_text "P1" r north east south west);
            Message "Parcel report complete." ].
Proof.
  split; [exact county_run_P1|].
  exact (@successful_run_outputs grid_host workbook county "P1" "out" fresh
           reported P1_outputs county_run_P1).
Defined.


(** X4, witness: the resolution of P1. *)
Lemma resolution_success_fields_witness :
  @resolution grid_host workbook county "P1" fresh
    = (inr P1_resolved, queried "P1", [])
  ∧ planning_district P1_resolved ≠ ""
  ∧ land_use_value P1_resolved ≠ ""
  ∧ dom (directional_land_use P1_resolved)
    = {[ "North"; "East"; "South"; "West" ]}.
Proof.
  split; [exact county_resolution_P1|].
  pose proof (@resolution_success_fields grid_host workbook county "P1" fresh
                (queried "P1") P1_resolved [] county_resolution_P1)
    as (Hd & Hl & _ & Hdom & _).
  exact (conj Hd (conj Hl Hdom)).
Defined.

(** X5, witness: the host after the complete run on P1. *)
Lemma successful_run_state_witness :
  @run grid_host workbook county "P1" "out" fresh = (inr tt, reported, P1_outputs)
  ∧ camera_scale reported = <[21%nat := 2640]> (camera_scale fresh).
Proof.
  split; [exact county_run_P1|].
  destruct (@successful_run_state grid_host workbook county "P1" "out" fresh
              reported P1_outputs county_run_P1)
    as (r & σ1 & l1 & l2 & l3 & f1 & f2 & f3 & _ & H1 & _ & _ & F1 & _ & _ & _
        & _ & _ & _ & _ & Hscale).
  injection H1 as <-. injection F1 as <-. exact Hscale.
Defined.

(** X6, witness: a project without a map. *)
Lemma startup_failure_untouched_witness :
  @run grid_host workbook mapless "P1" "out" stale = (inl IndexError, stale, []).
Proof.
  exact (@startup_failure_untouched grid_host workbook mapless "P1" "out" stale
           (or_introl eq_refl)).
Defined.

(** X7, witness: no parcel of the county is numbered P3. *)
Lemma unmatched_parcel_StopIteration_witness :
  @run grid_host workbook county "P3" "out" fresh
  = (inl StopIteration, with_queries (parcel_query parcels "P3") fresh, []).
Proof.
  apply (@unmatched_parcel_StopIteration grid_host workbook county "P3" "out"
           fresh county_map [] parcels districts [] []); try reflexivity.
  repeat constructor.
Defined.

(** X8, witness: on a stale host, locating P1 leaves the cursor on the
    district layer as it was. *)
Lemma locator_filters_parcel_layer_only_witness :
  @parcel_locator grid_host parcels "P1" stale = (inr (P1, P1), requeried, [])
  ∧ rows_of requeried districts "PLANNAME" = rows_of stale districts "PLANNAME"
  ∧ rows_of requeried parcels "ParcelNumber" = [(P1, Some "P1")].
Proof.
  assert (Hrun : @parcel_locator grid_host parcels "P1" stale
                 = (inr (P1, P1), requeried, []))
    by reflexivity.
  split; [exact Hrun|]. split.
  - exact (@locator_filters_parcel_layer_only grid_host parcels "P1" stale
             requeried _ [] districts "PLANNAME" Hrun).
  - exact (@locator_filters_parcel_layer_only grid_host parcels "P1" stale
             requeried _ [] parcels "ParcelNumber" Hrun).
Defined.

(** X10, witness: the third row of the workbook is spelled
    ("Florida Mesa", "Agricultural"); the second row is the one matched. *)
Lemma matcher_finds_own_keys_witness :
  ∃ r', In r' workbook ∧ @row_mask grid_host "Florida Mesa" "Agricultural" r' = true
        ∧ @metadata_matcher grid_host workbook "Florida Mesa" "Agricultural"
          = inr (SIZE r', DESC r').
Proof.
  apply (@matcher_finds_own_keys grid_host workbook
           {| DISTRICT_PLAN := CText "Florida Mesa"; TYPE := CText "Agricultural";
              SIZE := CText "40 acres"; DESC := CText "Second entry" |});
    [right; right; by left | reflexivity | reflexivity].
Defined.

(** X11, witness: the first row of the workbook has an empty district
    cell. *)
Lemma matcher_ignores_non_text_rows_witness :
  @metadata_matcher grid_host gappy_workbook "Florida Mesa" "Agricultural"
    = inr (CText "35 acres", CText "Farm and ranch")
  ∧ @metadata_matcher grid_host (List.filter text_keys gappy_workbook)
      "Florida Mesa" "Agricultural"
    = inr (CText "35 acres", CText "Farm and ranch").
Proof.
  assert (Hres : @metadata_matcher grid_host gappy_workbook
                   "Florida Mesa" "Agricultural"
                 = inr (CText "35 acres", CText "Farm and ranch"))
    by reflexivity.
  split; [exact Hres|].
  exact (@matcher_ignores_non_text_rows grid_host gappy_workbook
           "Florida Mesa" "Agricultural" _ Hres).
Defined.

(** X12, witness: the first zone of the layer covers the district. *)
Lemma prober_inside_first_zone_witness :
  ∃ m, @directional_prober grid_host wide_zone P1 fresh = (inr m, fresh, [])
       ∧ ∀ dir dx dy, In (dir, (dx, dy)) directions →
                      m !! dir = Some (Some "Residential").
Proof.
  apply (@prober_inside_first_zone grid_host wide_zone P1 (0, 0, 500, 500)
           (Some "Residential") [((90, 90, 130, 130), Some "Agricultural")] fresh);
    [reflexivity|].
  intros dir dx dy Hdir. simpl in Hdir.
  destruct Hdir as [[= <- <- <-]|[[= <- <- <-]|[[= <- <- <-]|[[= <- <- <-]|[]]]]];
    reflexivity.
Defined.

(** X13, witness: a group layer named like the district outline, listed
    before the feature layer, changes nothing. *)
Lemma district_lookup_feature_layers_only_witness :
  @resolution grid_host workbook county "P1" fresh
  = @resolution grid_host workbook grouped_county "P1" fresh.
Proof.
  apply (@district_lookup_feature_layers_only grid_host workbook county
           grouped_county county_map grouped_map "P1" fresh);
    try reflexivity.
  intros [w|] Hne; [|reflexivity].
  assert (Hw : String.eqb "Planning District Outline" w = false).
  { apply String.eqb_neq. intros <-. by apply Hne. }
  unfold county_map, grouped_map. cbn [listLayers]. unfold layers_by_name.
  cbn [List.filter fst snd]. by rewrite Hw.
Defined.

(** X14, witness: a fresh host and a host left over from a run on P4. *)
Lemma run_ignores_stale_state_witness :
  (@run grid_host workbook county "P1" "out" fresh).1.1
  = (@run grid_host workbook county "P1" "out" stale).1.1
  ∧ (@run grid_host workbook county "P1" "out" fresh).2
    = (@run grid_host workbook county "P1" "out" stale).2.
Proof.
  apply (@run_ignores_stale_state grid_host workbook county "P1" "out" fresh stale
           county_map [] parcels []);
    try reflexivity.
  intros id Hne. change (layer_id parcels) with 1%nat in Hne.
  simpl. by rewrite lookup_empty, lookup_singleton_ne.
Defined.

(** X15, witness: the county has the three layouts and their frames. *)
Lemma run_succeeds_witness :
  ∃ out,
    @run grid_host workbook county "P1" "out" fresh
    = (inr tt,
       with_cameras [(21%nat, P1 : @Extent grid_host); (22%nat, P1 : @Extent grid_host);
                     (23%nat, P1 : @Extent grid_host)] [(21%nat, 2640)]
                    (queried "P1"),
       out)
    ∧ length out = 5%nat.
Proof.
  exact (@run_succeeds grid_host workbook county "P1" "out" fresh (queried "P1")
           P1_resolved (one_frame 11 21 "Figure 1") (one_frame 12 22 "Figure 2")
           (one_frame 13 23 "Figure 3") 21%nat 22%nat 23%nat
           (Some "Residential") (Some "Residential")
           (Some "Residential") (Some "Residential")
           county_resolution_P1 eq_refl eq_refl eq_refl eq_refl eq_refl eq_refl
           eq_refl eq_refl eq_refl eq_refl eq_refl eq_refl eq_refl eq_refl).
Defined.

End GridRuns.
